(** * study-timer: the preset, session and interval actions over the store

    A shallow embedding of [src/db/tables.ts] (the three tables) and of the
    action handlers ([createPreset], [updatePreset], [listPresets],
    [startSession], [completeSession], [addInterval], [listIntervals]).

    - A table is the list of its rows in insertion order together with the
      next auto-increment id; [select], [update ... where] and [insert] are
      the usual list operations.
    - A handler is a computation in a state-and-exception monad over the
      [World]: the database, the number of [new Date()] calls made so far
      and the trace of database statements issued.  A thrown [ActionError]
      keeps the world as it was when the error was raised: the handlers do
      not run inside a transaction.
    - [new Date()] reads a clock that is a parameter of the development;
      nothing is assumed about it.
    - The store enforces the [references] of the tables: an insert whose
      reference points at no row is refused, and the handler is left by
      the store's error, which is not an [ActionError].
    - Numbers are integers, as [z.number().int()] admits them and the
      columns store them; how the driver turns a stored integer back into
      a JavaScript number is not part of the model. *)

From Stdlib Require Import ZArith List String Bool Lia.
Import ListNotations.

Local Open Scope string_scope.
Local Open Scope Z_scope.

(** ** Values *)

(** A [Date], as milliseconds since the epoch. *)
Definition Date := Z.

(** The free-form [meta] column.  The handlers never look inside it: they
    only test it for [null]/[undefined], so a value is either [null] or an
    opaque serialised document. *)
Inductive Json : Type :=
| JNull
| JValue (serialized : string).

Inductive SessionStatus : Type := in_progress | completed | cancelled.

Inductive IntervalType : Type := focus | break | long_break.

(** JavaScript's [if (x)] on an optional boolean and on an optional number,
    and [x ?? d]. *)
Definition truthy_bool (x : option bool) : bool :=
  match x with
  | Some true => true
  | _ => false
  end.

Definition truthy_number (x : option Z) : bool :=
  match x with
  | Some n => negb (n =? 0)
  | None => false
  end.

Definition nullish {A : Type} (x : option A) (d : A) : A :=
  match x with
  | Some v => v
  | None => d
  end.

Definition nullish_json (x : option Json) (d : Json) : Json :=
  match x with
  | Some (JValue s) => JValue s
  | Some JNull => d
  | None => d
  end.

(** What a column holds after [values({ col: x })] with [x] possibly
    [undefined], for the [json] column. *)
Definition json_column (x : option Json) : Json :=
  match x with
  | Some j => j
  | None => JNull
  end.

(** ** The tables ([src/db/tables.ts]) *)

Module TimerPresets.

Record row : Type := {
  id : Z;
  ownerId : string;
  name : string;
  focusMinutes : Z;
  shortBreakMinutes : Z;
  longBreakMinutes : option Z;
  cyclesBeforeLongBreak : option Z;
  cyclesPerBlock : option Z;
  isDefault : bool;
  createdAt : Date;
  updatedAt : Date
}.

(** The argument of [.set({...})]: the columns to overwrite. *)
Record cols : Type := {
  set_name : option string;
  set_focusMinutes : option Z;
  set_shortBreakMinutes : option Z;
  set_longBreakMinutes : option Z;
  set_cyclesBeforeLongBreak : option Z;
  set_cyclesPerBlock : option Z;
  set_isDefault : option bool;
  set_updatedAt : option Date
}.

Definition overwrite (c : cols) (r : row) : row :=
  {| id := id r;
     ownerId := ownerId r;
     name := nullish (set_name c) (name r);
     focusMinutes := nullish (set_focusMinutes c) (focusMinutes r);
     shortBreakMinutes := nullish (set_shortBreakMinutes c) (shortBreakMinutes r);
     longBreakMinutes :=
       match set_longBreakMinutes c with
       | Some v => Some v
       | None => longBreakMinutes r
       end;
     cyclesBeforeLongBreak :=
       match set_cyclesBeforeLongBreak c with
       | Some v => Some v
       | None => cyclesBeforeLongBreak r
       end;
     cyclesPerBlock :=
       match set_cyclesPerBlock c with
       | Some v => Some v
       | None => cyclesPerBlock r
       end;
     isDefault := nullish (set_isDefault c) (isDefault r);
     createdAt := createdAt r;
     updatedAt := nullish (set_updatedAt c) (updatedAt r) |}.

End TimerPresets.

Module FocusSessions.

Record row : Type := {
  id : Z;
  userId : string;
  presetId : option Z;
  label : option string;
  plannedFocusMinutes : option Z;
  actualFocusMinutes : Z;
  actualBreakMinutes : Z;
  plannedCycles : option Z;
  completedCycles : Z;
  status : SessionStatus;
  startedAt : Date;
  endedAt : option Date;
  meta : Json
}.

(** The columns [completeSession] overwrites; it always gives all six. *)
Record cols : Type := {
  set_actualFocusMinutes : Z;
  set_actualBreakMinutes : Z;
  set_completedCycles : Z;
  set_status : SessionStatus;
  set_endedAt : Date;
  set_meta : Json
}.

Definition overwrite (c : cols) (r : row) : row :=
  {| id := id r;
     userId := userId r;
     presetId := presetId r;
     label := label r;
     plannedFocusMinutes := plannedFocusMinutes r;
     actualFocusMinutes := set_actualFocusMinutes c;
     actualBreakMinutes := set_actualBreakMinutes c;
     plannedCycles := plannedCycles r;
     completedCycles := set_completedCycles c;
     status := set_status c;
     startedAt := startedAt r;
     endedAt := Some (set_endedAt c);
     meta := set_meta c |}.

End FocusSessions.

Module FocusIntervals.

Record row : Type := {
  id : Z;
  sessionId : Z;
  type : IntervalType;
  startedAt : Date;
  endedAt : option Date;
  durationSeconds : Z;
  completed : bool
}.

End FocusIntervals.

(** ** The store *)

Record Table (R : Type) : Type := {
  rows : list R;
  nextId : Z
}.
Arguments rows {R} _.
Arguments nextId {R} _.

Record Db : Type := {
  timerPresets : Table TimerPresets.row;
  focusSessions : Table FocusSessions.row;
  focusIntervals : Table FocusIntervals.row
}.

Definition setTimerPresets (t : Table TimerPresets.row) (d : Db) : Db :=
  {| timerPresets := t;
     focusSessions := focusSessions d;
     focusIntervals := focusIntervals d |}.

Definition setFocusSessions (t : Table FocusSessions.row) (d : Db) : Db :=
  {| timerPresets := timerPresets d;
     focusSessions := t;
     focusIntervals := focusIntervals d |}.

Definition setFocusIntervals (t : Table FocusIntervals.row) (d : Db) : Db :=
  {| timerPresets := timerPresets d;
     focusSessions := focusSessions d;
     focusIntervals := t |}.

Definition select_where {R : Type} (p : R -> bool) (t : Table R) : list R :=
  filter p (rows t).

(** [update(...).set(...).where(p)]: every matching row is overwritten in
    place; the rows in their new state are what [.returning()] gives. *)
Definition update_where {R : Type} (f : R -> R) (p : R -> bool) (t : Table R)
  : Table R * list R :=
  ({| rows := map (fun r => if p r then f r else r) (rows t);
      nextId := nextId t |},
   map f (filter p (rows t))).

(** [insert(...).values(v).returning()]: the row gets the next id.  The
    store refuses a row whose [references] column points at no row
    ([refers] is the foreign-key check of the table): the table is then
    left as it is and the next id is not consumed. *)
Definition insert_row {R : Type} (refers : R -> bool) (values : Z -> R)
    (t : Table R) : option (Table R * R) :=
  let r := values (nextId t) in
  if refers r
  then Some ({| rows := rows t ++ [r]; nextId := nextId t + 1 |}, r)
  else None.

(** The table after an insert the store accepts. *)
Definition inserted {R : Type} (values : Z -> R) (t : Table R) : Table R :=
  {| rows := rows t ++ [values (nextId t)]; nextId := nextId t + 1 |}.

(** [presetId: column.number({ references: () => TimerPresets.columns.id,
    optional: true })]: a session with a [presetId] needs a preset under
    that id, whoever owns it. *)
Definition presetExists (d : Db) (s : FocusSessions.row) : bool :=
  match FocusSessions.presetId s with
  | None => true
  | Some i => existsb (fun p => TimerPresets.id p =? i) (rows (timerPresets d))
  end.

(** [sessionId: column.number({ references: () => FocusSessions.columns.id })] *)
Definition sessionExists (d : Db) (i : FocusIntervals.row) : bool :=
  existsb (fun s => FocusSessions.id s =? FocusIntervals.sessionId i)
    (rows (focusSessions d)).
Arguments presetExists : simpl never.
Arguments sessionExists : simpl never.

Definition emptyTable {R : Type} : Table R := {| rows := []; nextId := 1 |}.

Definition emptyDb : Db :=
  {| timerPresets := emptyTable;
     focusSessions := emptyTable;
     focusIntervals := emptyTable |}.

(** ** The world a handler runs in *)

Inductive TableName : Type := TimerPresetsT | FocusSessionsT | FocusIntervalsT.

Inductive DbEvent : Type :=
| Select (t : TableName)
| Update (t : TableName)
| Insert (t : TableName).

Record World : Type := {
  db : Db;
  ticks : nat;
  trace : list DbEvent
}.

Definition emptyWorld : World := {| db := emptyDb; ticks := 0; trace := [] |}.

Inductive ActionErrorCode : Type := UNAUTHORIZED | NOT_FOUND.

(** What the store raises when it refuses a statement; it is not an
    [ActionError]. *)
Inductive StoreError : Type := FOREIGN_KEY_CONSTRAINT.

(** A handler returns, throws an [ActionError], or is left by an error of
    the store that no handler catches. *)
Inductive Outcome (A : Type) : Type :=
| Returned (a : A)
| Thrown (code : ActionErrorCode)
| Failed (e : StoreError).
Arguments Returned {A} _.
Arguments Thrown {A} _.
Arguments Failed {A} _.

Definition Action (A : Type) : Type := World -> Outcome A * World.

Definition ret {A : Type} (a : A) : Action A := fun w => (Returned a, w).

Definition throw {A : Type} (code : ActionErrorCode) : Action A :=
  fun w => (Thrown code, w).

Definition bind {A B : Type} (m : Action A) (k : A -> Action B) : Action B :=
  fun w =>
    match m w with
    | (Returned a, w') => k a w'
    | (Thrown code, w') => (Thrown code, w')
    | (Failed e, w') => (Failed e, w')
    end.

Notation "x <- m ;; k" := (bind m (fun x => k))
  (at level 61, m at next level, right associativity).
Notation "m ;;; k" := (bind m (fun _ => k))
  (at level 61, right associativity).

(** A statement on the store: it is recorded in the trace. *)
Definition query {A : Type} (e : DbEvent) (f : Db -> Db * A) : Action A :=
  fun w =>
    let (d, a) := f (db w) in
    (Returned a, {| db := d; ticks := ticks w; trace := trace w ++ [e] |}).

(** An insert: the statement is issued, and the store may refuse it. *)
Definition insertion {A : Type} (e : DbEvent) (f : Db -> option (Db * A))
  : Action A :=
  fun w =>
    match f (db w) with
    | Some (d, a) =>
        (Returned a, {| db := d; ticks := ticks w; trace := trace w ++ [e] |})
    | None =>
        (Failed FOREIGN_KEY_CONSTRAINT,
         {| db := db w; ticks := ticks w; trace := trace w ++ [e] |})
    end.

Definition selectPresets (p : TimerPresets.row -> bool)
  : Action (list TimerPresets.row) :=
  query (Select TimerPresetsT) (fun d => (d, select_where p (timerPresets d))).

Definition updatePresets (c : TimerPresets.cols) (p : TimerPresets.row -> bool)
  : Action (list TimerPresets.row) :=
  query (Update TimerPresetsT)
    (fun d =>
       let (t, out) := update_where (TimerPresets.overwrite c) p (timerPresets d) in
       (setTimerPresets t d, out)).

Definition insertPreset (values : Z -> TimerPresets.row)
  : Action TimerPresets.row :=
  insertion (Insert TimerPresetsT)
    (fun d =>
       match insert_row (fun _ => true) values (timerPresets d) with
       | Some (t, r) => Some (setTimerPresets t d, r)
       | None => None
       end).

Definition selectSessions (p : FocusSessions.row -> bool)
  : Action (list FocusSessions.row) :=
  query (Select FocusSessionsT) (fun d => (d, select_where p (focusSessions d))).

Definition updateSessions (c : FocusSessions.cols) (p : FocusSessions.row -> bool)
  : Action (list FocusSessions.row) :=
  query (Update FocusSessionsT)
    (fun d =>
       let (t, out) := update_where (FocusSessions.overwrite c) p (focusSessions d) in
       (setFocusSessions t d, out)).

Definition insertSession (values : Z -> FocusSessions.row)
  : Action FocusSessions.row :=
  insertion (Insert FocusSessionsT)
    (fun d =>
       match insert_row (presetExists d) values (focusSessions d) with
       | Some (t, r) => Some (setFocusSessions t d, r)
       | None => None
       end).

Definition selectIntervals (p : FocusIntervals.row -> bool)
  : Action (list FocusIntervals.row) :=
  query (Select FocusIntervalsT) (fun d => (d, select_where p (focusIntervals d))).

Definition insertInterval (values : Z -> FocusIntervals.row)
  : Action FocusIntervals.row :=
  insertion (Insert FocusIntervalsT)
    (fun d =>
       match insert_row (sessionExists d) values (focusIntervals d) with
       | Some (t, r) => Some (setFocusIntervals t d, r)
       | None => None
       end).

(** [const [x] = await ...limit(1)]: the first row, or [undefined]. *)
Definition first {R : Type} (l : list R) : option R := hd_error l.

(** ** The request context *)

Record User : Type := { user_id : string }.

Record Locals : Type := { user : option User }.

Record ActionAPIContext : Type := { locals : option Locals }.

Definition signedIn (u : string) : ActionAPIContext :=
  {| locals := Some {| user := Some {| user_id := u |} |} |}.

(** The identity [requireUser] finds, if any. *)
Definition identity (context : ActionAPIContext) : option User :=
  match locals context with
  | Some l => user l
  | None => None
  end.

(** ** The inputs of the actions, after validation *)

Module CreatePreset.
Record input : Type := {
  name : string;
  focusMinutes : option Z;
  shortBreakMinutes : option Z;
  longBreakMinutes : option Z;
  cyclesBeforeLongBreak : option Z;
  cyclesPerBlock : option Z;
  isDefault : option bool
}.
End CreatePreset.

Module UpdatePreset.
Record input : Type := {
  id : Z;
  name : option string;
  focusMinutes : option Z;
  shortBreakMinutes : option Z;
  longBreakMinutes : option Z;
  cyclesBeforeLongBreak : option Z;
  cyclesPerBlock : option Z;
  isDefault : option bool
}.
End UpdatePreset.

Module StartSession.
Record input : Type := {
  presetId : option Z;
  label : option string;
  plannedFocusMinutes : option Z;
  plannedCycles : option Z;
  meta : option Json
}.
End StartSession.

Module CompleteSession.
Record input : Type := {
  id : Z;
  actualFocusMinutes : option Z;
  actualBreakMinutes : option Z;
  completedCycles : option Z;
  status : option SessionStatus;
  meta : option Json
}.
End CompleteSession.

Module AddInterval.
Record input : Type := {
  sessionId : Z;
  type : option IntervalType;
  startedAt : option Date;
  endedAt : option Date;
  durationSeconds : option Z;
  completed : option bool
}.
End AddInterval.

Module ListIntervals.
Record input : Type := { sessionId : Z }.
End ListIntervals.

(** ** The handlers *)

Section Handlers.

(** [clock n] is what the [n]-th call of [new Date()] returns. *)
Variable clock : nat -> Date.

Definition newDate : Action Date :=
  fun w =>
    (Returned (clock (ticks w)),
     {| db := db w; ticks := S (ticks w); trace := trace w |}).

Definition requireUser (context : ActionAPIContext) : Action User :=
  match identity context with
  | Some u => ret u
  | None => throw UNAUTHORIZED
  end.

Definition ownedBy (u : User) (p : TimerPresets.row) : bool :=
  String.eqb (TimerPresets.ownerId p) (user_id u).

Definition sessionOf (u : User) (s : FocusSessions.row) : bool :=
  String.eqb (FocusSessions.userId s) (user_id u).

(** [.set({ isDefault: false, updatedAt: now })] *)
Definition clearDefault (now : Date) : TimerPresets.cols :=
  {| TimerPresets.set_name := None;
     TimerPresets.set_focusMinutes := None;
     TimerPresets.set_shortBreakMinutes := None;
     TimerPresets.set_longBreakMinutes := None;
     TimerPresets.set_cyclesBeforeLongBreak := None;
     TimerPresets.set_cyclesPerBlock := None;
     TimerPresets.set_isDefault := Some false;
     TimerPresets.set_updatedAt := Some now |}.

(** The row of [.values({...})] in [createPreset], before its id. *)
Definition presetValues (input : CreatePreset.input) (u : User)
    (created updated : Date) (i : Z) : TimerPresets.row :=
  {| TimerPresets.id := i;
     TimerPresets.ownerId := user_id u;
     TimerPresets.name := CreatePreset.name input;
     TimerPresets.focusMinutes := nullish (CreatePreset.focusMinutes input) 25;
     TimerPresets.shortBreakMinutes :=
       nullish (CreatePreset.shortBreakMinutes input) 5;
     TimerPresets.longBreakMinutes := CreatePreset.longBreakMinutes input;
     TimerPresets.cyclesBeforeLongBreak :=
       CreatePreset.cyclesBeforeLongBreak input;
     TimerPresets.cyclesPerBlock := CreatePreset.cyclesPerBlock input;
     TimerPresets.isDefault := nullish (CreatePreset.isDefault input) false;
     TimerPresets.createdAt := created;
     TimerPresets.updatedAt := updated |}.

Definition createPreset (input : CreatePreset.input)
    (context : ActionAPIContext) : Action TimerPresets.row :=
  u <- requireUser context ;;
  (if truthy_bool (CreatePreset.isDefault input)
   then
     now <- newDate ;;
     updatePresets (clearDefault now) (ownedBy u) ;;;
     ret tt
   else ret tt) ;;;
  created <- newDate ;;
  updated <- newDate ;;
  preset <- insertPreset (presetValues input u created updated) ;;
  ret preset.

(** [updateData]: the entries of [rest] that are not [undefined]; an
    absent key and an [undefined] value are both [None]. *)
Definition updateData (input : UpdatePreset.input) (now : option Date)
  : TimerPresets.cols :=
  {| TimerPresets.set_name := UpdatePreset.name input;
     TimerPresets.set_focusMinutes := UpdatePreset.focusMinutes input;
     TimerPresets.set_shortBreakMinutes := UpdatePreset.shortBreakMinutes input;
     TimerPresets.set_longBreakMinutes := UpdatePreset.longBreakMinutes input;
     TimerPresets.set_cyclesBeforeLongBreak :=
       UpdatePreset.cyclesBeforeLongBreak input;
     TimerPresets.set_cyclesPerBlock := UpdatePreset.cyclesPerBlock input;
     TimerPresets.set_isDefault := UpdatePreset.isDefault input;
     TimerPresets.set_updatedAt := now |}.

Definition isSome {A : Type} (x : option A) : bool :=
  match x with
  | Some _ => true
  | None => false
  end.

(** [Object.keys(updateData).length] *)
Definition updateDataLength (input : UpdatePreset.input) : nat :=
  List.length
    (filter (fun b : bool => b)
       [ isSome (UpdatePreset.name input);
         isSome (UpdatePreset.focusMinutes input);
         isSome (UpdatePreset.shortBreakMinutes input);
         isSome (UpdatePreset.longBreakMinutes input);
         isSome (UpdatePreset.cyclesBeforeLongBreak input);
         isSome (UpdatePreset.cyclesPerBlock input);
         isSome (UpdatePreset.isDefault input) ]).

Definition presetIs (i : Z) (u : User) (p : TimerPresets.row) : bool :=
  (TimerPresets.id p =? i) && ownedBy u p.

Definition updatePreset (input : UpdatePreset.input)
    (context : ActionAPIContext) : Action (option TimerPresets.row) :=
  u <- requireUser context ;;
  found <- selectPresets (presetIs (UpdatePreset.id input) u) ;;
  match first found with
  | None => throw NOT_FOUND
  | Some existing =>
      (if truthy_bool (UpdatePreset.isDefault input)
       then
         now <- newDate ;;
         updatePresets (clearDefault now)
           (fun p => ownedBy u p && Bool.eqb (TimerPresets.isDefault p) true) ;;;
         ret tt
       else ret tt) ;;;
      if Nat.eqb (updateDataLength input) 0
      then ret (Some existing)
      else
        now <- newDate ;;
        out <- updatePresets (updateData input (Some now))
                 (presetIs (UpdatePreset.id input) u) ;;
        ret (first out)
  end.

Definition listPresets (context : ActionAPIContext)
  : Action (list TimerPresets.row) :=
  u <- requireUser context ;;
  presets <- selectPresets (ownedBy u) ;;
  ret presets.

(** The row of [.values({...})] in [startSession]; the columns left out
    take the defaults of the table. *)
Definition sessionValues (input : StartSession.input) (u : User)
    (now : Date) (i : Z) : FocusSessions.row :=
  {| FocusSessions.id := i;
     FocusSessions.userId := user_id u;
     FocusSessions.presetId := StartSession.presetId input;
     FocusSessions.label := StartSession.label input;
     FocusSessions.plannedFocusMinutes := StartSession.plannedFocusMinutes input;
     FocusSessions.actualFocusMinutes := 0;
     FocusSessions.actualBreakMinutes := 0;
     FocusSessions.plannedCycles := StartSession.plannedCycles input;
     FocusSessions.completedCycles := 0;
     FocusSessions.status := in_progress;
     FocusSessions.startedAt := now;
     FocusSessions.endedAt := None;
     FocusSessions.meta := json_column (StartSession.meta input) |}.

Definition startSession (input : StartSession.input)
    (context : ActionAPIContext) : Action FocusSessions.row :=
  u <- requireUser context ;;
  (if truthy_number (StartSession.presetId input)
   then
     found <- selectPresets
                (presetIs (nullish (StartSession.presetId input) 0) u) ;;
     match first found with
     | None => throw NOT_FOUND
     | Some _ => ret tt
     end
   else ret tt) ;;;
  now <- newDate ;;
  session <- insertSession (sessionValues input u now) ;;
  ret session.

Definition sessionIs (i : Z) (u : User) (s : FocusSessions.row) : bool :=
  (FocusSessions.id s =? i) && sessionOf u s.

(** The session the three session-bound handlers look up first. *)
Definition resolveSession (i : Z) (u : User) : Action FocusSessions.row :=
  found <- selectSessions (sessionIs i u) ;;
  match first found with
  | None => throw NOT_FOUND
  | Some session => ret session
  end.

(** The argument of [.set({...})] in [completeSession]. *)
Definition completion (input : CompleteSession.input)
    (session : FocusSessions.row) (now : Date) : FocusSessions.cols :=
  {| FocusSessions.set_actualFocusMinutes :=
       nullish (CompleteSession.actualFocusMinutes input)
               (FocusSessions.actualFocusMinutes session);
     FocusSessions.set_actualBreakMinutes :=
       nullish (CompleteSession.actualBreakMinutes input)
               (FocusSessions.actualBreakMinutes session);
     FocusSessions.set_completedCycles :=
       nullish (CompleteSession.completedCycles input)
               (FocusSessions.completedCycles session);
     FocusSessions.set_status := nullish (CompleteSession.status input) completed;
     FocusSessions.set_endedAt := now;
     FocusSessions.set_meta :=
       nullish_json (CompleteSession.meta input) (FocusSessions.meta session) |}.

Definition completeSession (input : CompleteSession.input)
    (context : ActionAPIContext) : Action (option FocusSessions.row) :=
  u <- requireUser context ;;
  session <- resolveSession (CompleteSession.id input) u ;;
  now <- newDate ;;
  out <- updateSessions (completion input session now)
           (fun s => FocusSessions.id s =? CompleteSession.id input) ;;
  ret (first out).

(** The row of [.values({...})] in [addInterval]. *)
Definition intervalValues (input : AddInterval.input) (started : Date)
    (i : Z) : FocusIntervals.row :=
  {| FocusIntervals.id := i;
     FocusIntervals.sessionId := AddInterval.sessionId input;
     FocusIntervals.type := nullish (AddInterval.type input) focus;
     FocusIntervals.startedAt := started;
     FocusIntervals.endedAt := AddInterval.endedAt input;
     FocusIntervals.durationSeconds :=
       nullish (AddInterval.durationSeconds input) 0;
     FocusIntervals.completed := nullish (AddInterval.completed input) false |}.

Definition addInterval (input : AddInterval.input)
    (context : ActionAPIContext) : Action FocusIntervals.row :=
  u <- requireUser context ;;
  resolveSession (AddInterval.sessionId input) u ;;;
  started <- match AddInterval.startedAt input with
             | Some d => ret d
             | None => newDate
             end ;;
  interval <- insertInterval (intervalValues input started) ;;
  ret interval.

Definition listIntervals (input : ListIntervals.input)
    (context : ActionAPIContext) : Action (list FocusIntervals.row) :=
  u <- requireUser context ;;
  resolveSession (ListIntervals.sessionId input) u ;;;
  intervals <- selectIntervals
    (fun i => FocusIntervals.sessionId i =? ListIntervals.sessionId input) ;;
  ret intervals.

End Handlers.

(** ** Requests and runs *)

Inductive Call : Type :=
| CreatePresetCall (input : CreatePreset.input)
| UpdatePresetCall (input : UpdatePreset.input)
| ListPresetsCall
| StartSessionCall (input : StartSession.input)
| CompleteSessionCall (input : CompleteSession.input)
| AddIntervalCall (input : AddInterval.input)
| ListIntervalsCall (input : ListIntervals.input).

Inductive Response : Type :=
| PresetResponse (preset : option TimerPresets.row)
| PresetsResponse (presets : list TimerPresets.row)
| SessionResponse (session : option FocusSessions.row)
| IntervalResponse (interval : FocusIntervals.row)
| IntervalsResponse (intervals : list FocusIntervals.row).

Record Request : Type := {
  context : ActionAPIContext;
  call : Call
}.

Section Server.

Variable clock : nat -> Date.

(** The [server] object: one handler per action name. *)
Definition server (c : Call) (ctx : ActionAPIContext) : Action Response :=
  match c with
  | CreatePresetCall input =>
      r <- createPreset clock input ctx ;; ret (PresetResponse (Some r))
  | UpdatePresetCall input =>
      r <- updatePreset clock input ctx ;; ret (PresetResponse r)
  | ListPresetsCall =>
      r <- listPresets ctx ;; ret (PresetsResponse r)
  | StartSessionCall input =>
      r <- startSession clock input ctx ;; ret (SessionResponse (Some r))
  | CompleteSessionCall input =>
      r <- completeSession clock input ctx ;; ret (SessionResponse r)
  | AddIntervalCall input =>
      r <- addInterval clock input ctx ;; ret (IntervalResponse r)
  | ListIntervalsCall input =>
      r <- listIntervals input ctx ;; ret (IntervalsResponse r)
  end.

Definition step (r : Request) (w : World) : World :=
  snd (server (call r) (context r) w).

(** The requests are served one after the other. *)
Definition run (rs : list Request) (w : World) : World :=
  fold_left (fun w r => step r w) rs w.

End Server.

(** ** Properties of the store *)

(** [id] is the primary key of every table and is auto-incremented: no two
    rows share an id, and every id in use is below the next one. *)
Definition keyed {R : Type} (key : R -> Z) (t : Table R) : Prop :=
  NoDup (map key (rows t)) /\ Forall (fun r => key r < nextId t) (rows t).

Definition primaryKeys (d : Db) : Prop :=
  keyed TimerPresets.id (timerPresets d) /\
  keyed FocusSessions.id (focusSessions d) /\
  keyed FocusIntervals.id (focusIntervals d).

(** The default presets of an owner. *)
Definition isDefaultOf (U : string) (p : TimerPresets.row) : bool :=
  String.eqb (TimerPresets.ownerId p) U && TimerPresets.isDefault p.

Definition defaultsOf (U : string) (d : Db) : list TimerPresets.row :=
  select_where (isDefaultOf U) (timerPresets d).

Definition atMostOneDefault (U : string) (d : Db) : Prop :=
  (List.length (defaultsOf U d) <= 1)%nat.

(** A call of one of the two preset-writing actions. *)
Inductive PresetCall : Type :=
| Create (input : CreatePreset.input)
| Change (input : UpdatePreset.input).

Definition presetRequest (U : string) (c : PresetCall) : Request :=
  {| context := signedIn U;
     call := match c with
             | Create input => CreatePresetCall input
             | Change input => UpdatePresetCall input
             end |}.

(** The preset, or the session, stored under an id. *)
Definition presetAt (i : Z) (d : Db) : option TimerPresets.row :=
  first (select_where (fun p => TimerPresets.id p =? i) (timerPresets d)).

Definition sessionAt (i : Z) (d : Db) : option FocusSessions.row :=
  first (select_where (fun s => FocusSessions.id s =? i) (focusSessions d)).

Definition statusAt (i : Z) (d : Db) : option SessionStatus :=
  option_map FocusSessions.status (sessionAt i d).

Definition terminal (s : SessionStatus) : bool :=
  match s with
  | in_progress => false
  | completed => true
  | cancelled => true
  end.

(** [endedAt] is set exactly when the session has left [in_progress]. *)
Definition endedIffLeft (s : FocusSessions.row) : Prop :=
  FocusSessions.endedAt s <> None <-> FocusSessions.status s <> in_progress.

(** One half of it: a session that has left [in_progress] has [endedAt]. *)
Definition endedWhenLeft (s : FocusSessions.row) : Prop :=
  FocusSessions.status s <> in_progress -> FocusSessions.endedAt s <> None.

Definition returned {A : Type} (o : Outcome A) : bool :=
  match o with
  | Returned _ => true
  | _ => false
  end.

(** Served in world [w], the request reopens the session of id [i]: it
    calls [completeSession] on that id with [status: "in_progress"], and
    the call goes through. *)
Definition reopensAt (clock : nat -> Date) (i : Z) (r : Request) (w : World)
  : bool :=
  match call r with
  | CompleteSessionCall input =>
      (CompleteSession.id input =? i)
      && match CompleteSession.status input with
         | Some in_progress => true
         | _ => false
         end
      && returned (fst (completeSession clock input (context r) w))
  | _ => false
  end.

(** No request of the run reopens session [i], each request being taken
    in the world it is served in. *)
Fixpoint neverReopened (clock : nat -> Date) (i : Z) (rs : list Request)
    (w : World) : bool :=
  match rs with
  | [] => true
  | r :: rest =>
      negb (reopensAt clock i r w) && neverReopened clock i rest (step clock r w)
  end.

(** No optional field of an [updatePreset] input is supplied. *)
Definition noField (input : UpdatePreset.input) : Prop :=
  UpdatePreset.name input = None /\
  UpdatePreset.focusMinutes input = None /\
  UpdatePreset.shortBreakMinutes input = None /\
  UpdatePreset.longBreakMinutes input = None /\
  UpdatePreset.cyclesBeforeLongBreak input = None /\
  UpdatePreset.cyclesPerBlock input = None /\
  UpdatePreset.isDefault input = None.

(** ** Sample data *)

Definition sampleClock (n : nat) : Date := 1700000000000 + Z.of_nat n.

Definition alice : string := "alice".
Definition bob : string := "bob".

Definition newPreset (n : string) (d : option bool) : CreatePreset.input :=
  {| CreatePreset.name := n;
     CreatePreset.focusMinutes := None;
     CreatePreset.shortBreakMinutes := None;
     CreatePreset.longBreakMinutes := None;
     CreatePreset.cyclesBeforeLongBreak := None;
     CreatePreset.cyclesPerBlock := None;
     CreatePreset.isDefault := d |}.

Definition changePreset (i : Z) (n : option string) (d : option bool)
  : UpdatePreset.input :=
  {| UpdatePreset.id := i;
     UpdatePreset.name := n;
     UpdatePreset.focusMinutes := None;
     UpdatePreset.shortBreakMinutes := None;
     UpdatePreset.longBreakMinutes := None;
     UpdatePreset.cyclesBeforeLongBreak := None;
     UpdatePreset.cyclesPerBlock := None;
     UpdatePreset.isDefault := d |}.

Definition newSession (preset : option Z) : StartSession.input :=
  {| StartSession.presetId := preset;
     StartSession.label := None;
     StartSession.plannedFocusMinutes := Some 25;
     StartSession.plannedCycles := None;
     StartSession.meta := None |}.

Definition finish (i : Z) (focused : option Z) (st : option SessionStatus)
  : CompleteSession.input :=
  {| CompleteSession.id := i;
     CompleteSession.actualFocusMinutes := focused;
     CompleteSession.actualBreakMinutes := None;
     CompleteSession.completedCycles := None;
     CompleteSession.status := st;
     CompleteSession.meta := None |}.

Definition newInterval (i : Z) : AddInterval.input :=
  {| AddInterval.sessionId := i;
     AddInterval.type := Some break;
     AddInterval.startedAt := None;
     AddInterval.endedAt := None;
     AddInterval.durationSeconds := Some 300;
     AddInterval.completed := None |}.

Definition by_ (U : string) (c : Call) : Request :=
  {| context := signedIn U; call := c |}.

(** Alice has two presets, the second one the default, and Bob one. *)
Definition presetsWorld : World :=
  Eval vm_compute in
    run sampleClock
      [ by_ alice (CreatePresetCall (newPreset "Classic" (Some true)));
        by_ alice (CreatePresetCall (newPreset "Deep Work" (Some true)));
        by_ bob (CreatePresetCall (newPreset "Sprint" (Some true))) ]
      emptyWorld.

(** Alice has started session 1 and completed it with 23 minutes. *)
Definition sessionsWorld : World :=
  Eval vm_compute in
    run sampleClock
      [ by_ alice (StartSessionCall (newSession None));
        by_ alice (CompleteSessionCall (finish 1 (Some 23) None)) ]
      emptyWorld.

(** The first preset and the first session of these worlds. *)
Definition classic : TimerPresets.row :=
  Eval vm_compute in
    nth 0 (rows (timerPresets (db presetsWorld)))
      (presetValues (newPreset "" None) {| user_id := "" |} 0 0 0).

Definition evening : FocusSessions.row :=
  Eval vm_compute in
    nth 0 (rows (focusSessions (db sessionsWorld)))
      (sessionValues (newSession None) {| user_id := "" |} 0 0).

(** A context without [locals], and one whose [locals] has no user. *)
Definition noLocals : ActionAPIContext := {| locals := None |}.

Definition anonymous : ActionAPIContext :=
  {| locals := Some {| user := None |} |}.

(** Alice's default preset, Bob's preset, and the sample world after Alice
    has added a break to her session. *)
Definition deepWork : TimerPresets.row :=
  Eval vm_compute in
    nth 1 (rows (timerPresets (db presetsWorld)))
      (presetValues (newPreset "" None) {| user_id := "" |} 0 0 0).

Definition sprint : TimerPresets.row :=
  Eval vm_compute in
    nth 2 (rows (timerPresets (db presetsWorld)))
      (presetValues (newPreset "" None) {| user_id := "" |} 0 0 0).

Definition intervalsWorld : World :=
  Eval vm_compute in
    run sampleClock [by_ alice (AddIntervalCall (newInterval 1))] sessionsWorld.

(** Bob has a session of his own next to Alice's. *)
Definition sharedWorld : World :=
  Eval vm_compute in
    run sampleClock [by_ bob (StartSessionCall (newSession None))] sessionsWorld.

(** Bob's session in that world. *)
Definition morning : FocusSessions.row :=
  Eval vm_compute in
    nth 1 (rows (focusSessions (db sharedWorld)))
      (sessionValues (newSession None) {| user_id := "" |} 0 0).

(** * Facts about tables *)

Section TableFacts.

Context {R : Type}.
Variable key : R -> Z.

Lemma filter_nothing (p : R -> bool) (l : list R) :
  (forall r, In r l -> p r = false) -> filter p l = [].
Proof.
  induction l as [|a l IH]; intros H; simpl; [reflexivity|].
  rewrite (H a (or_introl eq_refl)).
  apply IH. intros r Hr. apply H. now right.
Qed.

(** Under a primary key, a condition that pins the key selects one row. *)
Lemma filter_by_key (p : R -> bool) (l : list R) (r : R) :
  NoDup (map key l) ->
  In r l ->
  p r = true ->
  (forall x, p x = true -> key x = key r) ->
  filter p l = [r].
Proof.
  induction l as [|a l IH]; intros Hnd Hin Hp Hkey; [destruct Hin|].
  simpl in Hnd. inversion Hnd as [|k ks Hnotin Hnd']; subst.
  simpl. destruct Hin as [->|Hin].
  - rewrite Hp. f_equal. apply filter_nothing.
    intros x Hx. destruct (p x) eqn:Hpx; [|reflexivity].
    exfalso. apply Hnotin. rewrite <- (Hkey x Hpx). now apply in_map.
  - destruct (p a) eqn:Hpa.
    + exfalso. apply Hnotin. rewrite (Hkey a Hpa). now apply in_map.
    + now apply IH.
Qed.

Lemma filter_by_key_le (p : R -> bool) (l : list R) (i : Z) :
  NoDup (map key l) ->
  (forall x, p x = true -> key x = i) ->
  (List.length (filter p l) <= 1)%nat.
Proof.
  intros Hnd Hkey.
  destruct (filter p l) as [|r rest] eqn:Hf; [simpl; lia|].
  assert (Hr : In r (filter p l)) by (rewrite Hf; now left).
  apply filter_In in Hr. destruct Hr as [Hin Hp].
  rewrite (filter_by_key p l r Hnd Hin Hp) in Hf.
  - inversion Hf. simpl. lia.
  - intros x Hx. rewrite (Hkey x Hx). symmetry. now apply Hkey.
Qed.

(** An update that turns no row into a match cannot add matches. *)
Lemma filter_map_le (d : R -> bool) (g : R -> R) (l : list R) :
  (forall r, In r l -> d (g r) = true -> d r = true) ->
  (List.length (filter d (map g l)) <= List.length (filter d l))%nat.
Proof.
  induction l as [|a l IH]; intros H; simpl; [lia|].
  assert (IH' : (List.length (filter d (map g l)) <= List.length (filter d l))%nat).
  { apply IH. intros r Hr. apply H. now right. }
  destruct (d (g a)) eqn:Hga.
  - rewrite (H a (or_introl eq_refl) Hga). simpl. lia.
  - destruct (d a); simpl; lia.
Qed.

(** An update adds at most as many matches as it touches rows. *)
Lemma filter_update_le (d q : R -> bool) (f : R -> R) (l : list R) :
  (List.length (filter d (map (fun r => if q r then f r else r) l))
   <= List.length (filter d l) + List.length (filter q l))%nat.
Proof.
  induction l as [|a l IH]; simpl; [lia|].
  destruct (q a); simpl.
  - destruct (d (f a)), (d a); simpl; lia.
  - destruct (d a); simpl; lia.
Qed.

Lemma first_filter_map (p : R -> bool) (g : R -> R) (l : list R) :
  (forall r, p (g r) = p r) ->
  first (filter p (map g l)) = option_map g (first (filter p l)).
Proof.
  intros H. induction l as [|a l IH]; simpl; [reflexivity|].
  rewrite H. destruct (p a); simpl; [reflexivity|exact IH].
Qed.

Lemma first_filter_app (p : R -> bool) (l : list R) (r x : R) :
  first (filter p l) = Some r -> first (filter p (l ++ [x])) = Some r.
Proof.
  rewrite filter_app. destruct (filter p l); simpl; [discriminate|auto].
Qed.

(** The primary key survives updates that keep the key column and
    inserts that take the next id. *)
Lemma keyed_update (g : R -> R) (t : Table R) :
  (forall r, key (g r) = key r) ->
  keyed key t ->
  keyed key {| rows := map g (rows t); nextId := nextId t |}.
Proof.
  intros Hg [Hnd Hlt]. split; simpl.
  - rewrite map_map. rewrite (map_ext _ key) by exact Hg. exact Hnd.
  - rewrite Forall_map. eapply Forall_impl; [|exact Hlt].
    intros r Hr. simpl. now rewrite Hg.
Qed.

Lemma keyed_insert (values : Z -> R) (t : Table R) :
  (forall i, key (values i) = i) ->
  keyed key t ->
  keyed key {| rows := rows t ++ [values (nextId t)]; nextId := nextId t + 1 |}.
Proof.
  intros Hv [Hnd Hlt]. split; simpl.
  - rewrite map_app. simpl. rewrite Hv.
    apply NoDup_app; [exact Hnd|repeat constructor; intros []|].
    intros k Hin [<-|[]]. apply in_map_iff in Hin.
    destruct Hin as [r [Hk Hr]].
    rewrite Forall_forall in Hlt. specialize (Hlt r Hr). simpl in Hlt. lia.
  - apply Forall_app. split.
    + eapply Forall_impl; [|exact Hlt]. intros r Hr. simpl in *. lia.
    + constructor; [|constructor]. rewrite Hv. lia.
Qed.

Lemma key_injective (l : list R) (a b : R) :
  NoDup (map key l) -> In a l -> In b l -> key a = key b -> a = b.
Proof.
  induction l as [|x l IH]; intros Hnd Ha Hb Hk; [destruct Ha|].
  simpl in Hnd. inversion Hnd as [|k ks Hnotin Hnd']; subst.
  destruct Ha as [->|Ha], Hb as [->|Hb]; auto.
  - exfalso. apply Hnotin. rewrite Hk. now apply in_map.
  - exfalso. apply Hnotin. rewrite <- Hk. now apply in_map.
Qed.

(** The row a key-pinning condition selects after a key-preserving update. *)
Lemma filter_by_key_map (p : R -> bool) (g : R -> R) (l : list R) (r : R) :
  NoDup (map key l) ->
  (forall x, key (g x) = key x) ->
  In r l ->
  p (g r) = true ->
  (forall x, p x = true -> key x = key r) ->
  filter p (map g l) = [g r].
Proof.
  intros Hnd Hg Hin Hp Hkey. apply filter_by_key.
  - rewrite map_map. now rewrite (map_ext _ key) by exact Hg.
  - now apply in_map.
  - exact Hp.
  - intros x Hx. rewrite Hg. now apply Hkey.
Qed.

Lemma keyed_empty : keyed key emptyTable.
Proof. split; simpl; constructor. Qed.

End TableFacts.

(** * The handlers, run *)

Ltac unfold_handlers :=
  unfold server, createPreset, updatePreset, listPresets, startSession,
    completeSession, addInterval, listIntervals, resolveSession, requireUser.

Ltac unfold_store :=
  unfold selectPresets, updatePresets, insertPreset, selectSessions,
    updateSessions, insertSession, selectIntervals, insertInterval, query,
    insertion, insert_row, newDate, bind, ret, throw.

Ltac run_handler := unfold_handlers; unfold_store; simpl.

Section PresetFacts.

Variable clock : nat -> Date.

(** Clearing the default flag never makes a row a default. *)
Lemma clear_not_default (U : string) (now : Date) (q : TimerPresets.row -> bool)
    (r : TimerPresets.row) :
  isDefaultOf U (if q r then TimerPresets.overwrite (clearDefault now) r else r) = true ->
  isDefaultOf U r = true.
Proof.
  destruct (q r); [|auto]. unfold isDefaultOf. simpl.
  rewrite andb_false_r. discriminate.
Qed.

(** An update by another user leaves the defaults of [U] alone. *)
Lemma foreign_update_not_default (U : string) (u : User) (c : TimerPresets.cols)
    (q : TimerPresets.row -> bool) (r : TimerPresets.row) :
  user_id u <> U ->
  (forall x, q x = true -> ownedBy u x = true) ->
  isDefaultOf U (if q r then TimerPresets.overwrite c r else r) = true ->
  isDefaultOf U r = true.
Proof.
  intros Hne Hq. destruct (q r) eqn:Hqr; [|auto].
  apply Hq in Hqr. unfold ownedBy in Hqr. apply String.eqb_eq in Hqr.
  unfold isDefaultOf. simpl. rewrite Hqr.
  destruct (String.eqb (user_id u) U) eqn:He; [|discriminate].
  apply String.eqb_eq in He. contradiction.
Qed.

(** After an update that clears every default of [U], [U] has none. *)
Lemma cleared_defaults (U : string) (now : Date) (q : TimerPresets.row -> bool)
    (l : list TimerPresets.row) :
  (forall r, isDefaultOf U r = true -> q r = true) ->
  filter (isDefaultOf U)
    (map (fun r => if q r then TimerPresets.overwrite (clearDefault now) r else r) l)
  = [].
Proof.
  intros Hq. apply filter_nothing. intros r Hr. apply in_map_iff in Hr.
  destruct Hr as [x [<- _]].
  destruct (q x) eqn:Hqx.
  - unfold isDefaultOf. simpl. apply andb_false_r.
  - destruct (isDefaultOf U x) eqn:Hd; [|reflexivity].
    apply Hq in Hd. congruence.
Qed.

Lemma presetIs_id (i : Z) (u : User) (r : TimerPresets.row) :
  presetIs i u r = true -> TimerPresets.id r = i.
Proof.
  unfold presetIs. intros H. apply andb_prop in H. destruct H as [H _].
  now apply Z.eqb_eq in H.
Qed.

Lemma presetIs_owned (i : Z) (u : User) (r : TimerPresets.row) :
  presetIs i u r = true -> ownedBy u r = true.
Proof. unfold presetIs. intros H. apply andb_prop in H. tauto. Qed.

Lemma map_update_ids (c : TimerPresets.cols) (q : TimerPresets.row -> bool)
    (l : list TimerPresets.row) :
  map TimerPresets.id
    (map (fun r => if q r then TimerPresets.overwrite c r else r) l)
  = map TimerPresets.id l.
Proof.
  rewrite map_map. apply map_ext. intros r. now destruct (q r).
Qed.

(** [createPreset] keeps the caller, and everybody else, at one default
    at most. *)
Lemma createPreset_oneDefault (U : string) (input : CreatePreset.input)
    (ctx : ActionAPIContext) (w : World) :
  atMostOneDefault U (db w) ->
  atMostOneDefault U (db (snd (createPreset clock input ctx w))).
Proof.
  unfold atMostOneDefault, defaultsOf, select_where. intros H.
  run_handler. destruct (identity ctx) as [u|]; simpl; [|exact H].
  destruct (truthy_bool (CreatePreset.isDefault input)) eqn:Ht; simpl;
    rewrite filter_app, length_app; simpl.
  - destruct (String.eqb (user_id u) U) eqn:HU.
    + apply String.eqb_eq in HU. subst U.
      rewrite cleared_defaults.
      * simpl. destruct (isDefaultOf _ _); simpl; lia.
      * intros r Hr. unfold isDefaultOf in Hr. apply andb_prop in Hr.
        unfold ownedBy. tauto.
    + unfold isDefaultOf at 2. simpl. rewrite HU. simpl.
      rewrite Nat.add_0_r. etransitivity; [|exact H].
      apply filter_map_le. intros r _. apply clear_not_default.
  - unfold isDefaultOf at 2. simpl. revert Ht.
    destruct (CreatePreset.isDefault input) as [[|]|]; try discriminate;
      intros _; simpl; rewrite andb_false_r; simpl; lia.
Qed.

(** What a supplied [isDefault] can and cannot do to a row. *)
Lemma updateData_not_default (U : string) (input : UpdatePreset.input)
    (now : option Date) (q : TimerPresets.row -> bool) (r : TimerPresets.row) :
  truthy_bool (UpdatePreset.isDefault input) = false ->
  isDefaultOf U (if q r then TimerPresets.overwrite (updateData input now) r else r)
    = true ->
  isDefaultOf U r = true.
Proof.
  intros Ht. destruct (q r); [|auto]. unfold isDefaultOf. simpl.
  destruct (UpdatePreset.isDefault input) as [[|]|]; try discriminate; simpl.
  - rewrite andb_false_r. discriminate.
  - auto.
Qed.

(** [updatePreset] keeps everybody at one default at most: it clears the
    caller's defaults before it sets one, and sets it on one row. *)
Lemma updatePreset_oneDefault (U : string) (input : UpdatePreset.input)
    (ctx : ActionAPIContext) (w : World) :
  keyed TimerPresets.id (timerPresets (db w)) ->
  atMostOneDefault U (db w) ->
  atMostOneDefault U (db (snd (updatePreset clock input ctx w))).
Proof.
  unfold atMostOneDefault, defaultsOf, select_where. intros [Hnd _] H.
  run_handler. destruct (identity ctx) as [u|]; simpl; [|exact H].
  destruct (first _) as [existing|]; simpl; [|exact H].
  set (mine := fun p => ownedBy u p && Bool.eqb (TimerPresets.isDefault p) true).
  destruct (truthy_bool (UpdatePreset.isDefault input)) eqn:Ht; simpl;
    destruct (Nat.eqb (updateDataLength input) 0); simpl; try exact H.
  - etransitivity; [|exact H].
    apply filter_map_le. intros r _. apply (clear_not_default U _ mine).
  - destruct (String.eqb (user_id u) U) eqn:HU.
    + apply String.eqb_eq in HU. subst U.
      etransitivity; [apply filter_update_le|].
      rewrite (cleared_defaults (user_id u) _ mine).
      * simpl. apply (filter_by_key_le TimerPresets.id) with (i := UpdatePreset.id input).
        -- now rewrite (map_update_ids _ mine).
        -- intros x. apply presetIs_id.
      * intros r Hr. unfold mine, ownedBy. unfold isDefaultOf in Hr.
        apply andb_prop in Hr. destruct Hr as [-> ->]. reflexivity.
    + apply String.eqb_neq in HU.
      etransitivity; [|exact H].
      etransitivity; apply filter_map_le; intros r _.
      * apply foreign_update_not_default with (u := u); [exact HU|].
        intros x. apply presetIs_owned.
      * apply (clear_not_default U _ mine).
  - etransitivity; [|exact H].
    apply filter_map_le. intros r _. now apply updateData_not_default.
Qed.

End PresetFacts.

(** * Primary keys are kept by every action *)

Section KeyFacts.

Variable clock : nat -> Date.

Lemma keyed_presets_cleared (c : TimerPresets.cols)
    (q : TimerPresets.row -> bool) (t : Table TimerPresets.row) :
  keyed TimerPresets.id t ->
  keyed TimerPresets.id (fst (update_where (TimerPresets.overwrite c) q t)).
Proof.
  intros H. simpl.
  apply (keyed_update TimerPresets.id
           (fun r => if q r then TimerPresets.overwrite c r else r)); [|exact H].
  intros r. now destruct (q r).
Qed.

Lemma keyed_sessions_updated (c : FocusSessions.cols)
    (q : FocusSessions.row -> bool) (t : Table FocusSessions.row) :
  keyed FocusSessions.id t ->
  keyed FocusSessions.id (fst (update_where (FocusSessions.overwrite c) q t)).
Proof.
  intros H. simpl.
  apply (keyed_update FocusSessions.id
           (fun r => if q r then FocusSessions.overwrite c r else r)); [|exact H].
  intros r. now destruct (q r).
Qed.

Lemma server_primaryKeys (c : Call) (ctx : ActionAPIContext) (w : World) :
  primaryKeys (db w) -> primaryKeys (db (snd (server clock c ctx w))).
Proof.
  intros H. pose proof H as [Hp [Hs Hi]].
  destruct c; run_handler; destruct (identity ctx) as [u|]; simpl; try exact H.
  - (* createPreset *)
    destruct (truthy_bool _); simpl; (split; [|split]); simpl; try assumption.
    + apply (keyed_insert TimerPresets.id
               (presetValues input u _ _)
               (fst (update_where (TimerPresets.overwrite _) _ _)));
        [reflexivity|now apply keyed_presets_cleared].
    + apply (keyed_insert TimerPresets.id (presetValues input u _ _));
        [reflexivity|assumption].
  - (* updatePreset *)
    destruct (first _); simpl; [|exact H].
    destruct (truthy_bool _); simpl; destruct (Nat.eqb _ 0); simpl;
      try exact H; (split; [|split]); simpl; try assumption.
    + now apply keyed_presets_cleared.
    + apply (keyed_presets_cleared _ _
               (fst (update_where (TimerPresets.overwrite _) _ _))).
      now apply keyed_presets_cleared.
    + now apply keyed_presets_cleared.
  - (* startSession *)
    assert (Hins : forall now,
               keyed FocusSessions.id
                 {| rows := rows (focusSessions (db w))
                              ++ [sessionValues input u now (nextId (focusSessions (db w)))];
                    nextId := nextId (focusSessions (db w)) + 1 |}).
    { intros now. apply (keyed_insert FocusSessions.id (sessionValues input u now));
        [reflexivity|assumption]. }
    destruct (truthy_number _); simpl;
      [destruct (first _); simpl; [|exact H]|];
      (destruct (presetExists _ _); simpl; [|exact H]);
      (split; [|split]); simpl; try assumption; apply Hins.
  - (* completeSession *)
    destruct (first _); simpl; [|exact H].
    (split; [|split]); simpl; try assumption.
    now apply keyed_sessions_updated.
  - (* addInterval *)
    assert (Hins : forall started,
               keyed FocusIntervals.id
                 {| rows := rows (focusIntervals (db w))
                              ++ [intervalValues input started (nextId (focusIntervals (db w)))];
                    nextId := nextId (focusIntervals (db w)) + 1 |}).
    { intros started. apply (keyed_insert FocusIntervals.id (intervalValues input started));
        [reflexivity|assumption]. }
    destruct (first _); simpl; [|exact H].
    destruct (AddInterval.startedAt input); simpl;
      (destruct (sessionExists _ _); simpl; [|exact H]);
      (split; [|split]); simpl; try assumption; apply Hins.
  - (* listIntervals *)
    destruct (first _); simpl; exact H.
Qed.

Lemma run_primaryKeys (rs : list Request) (w : World) :
  primaryKeys (db w) -> primaryKeys (db (run clock rs w)).
Proof.
  revert w. induction rs as [|r rs IH]; intros w H; simpl; [exact H|].
  apply IH. now apply server_primaryKeys.
Qed.

Lemma emptyDb_primaryKeys : primaryKeys emptyDb.
Proof. repeat split; constructor. Qed.

(** X24. Every store the server can reach from the empty one has primary
    keys: whatever the requests and their callers, no two rows of a table
    share an id and every id in use is below the next one, as no handler
    ever writes an id itself. *)
Lemma reachable_primaryKeys (rs : list Request) :
  primaryKeys (db (run clock rs emptyWorld)).
Proof. apply run_primaryKeys. exact emptyDb_primaryKeys. Qed.

End KeyFacts.

(** * One default preset per owner *)

Section DefaultPreset.

Variable clock : nat -> Date.

(** The session and interval actions do not write to the presets. *)
Lemma server_presets_frame (c : Call) (ctx : ActionAPIContext) (w : World) :
  match c with
  | CreatePresetCall _ | UpdatePresetCall _ => True
  | _ => timerPresets (db (snd (server clock c ctx w))) = timerPresets (db w)
  end.
Proof.
  destruct c; try exact I; run_handler;
    destruct (identity ctx) as [u|]; simpl; try reflexivity.
  - destruct (truthy_number _); simpl;
      [destruct (first _); simpl; [|reflexivity]|];
      destruct (presetExists _ _); reflexivity.
  - destruct (first _); reflexivity.
  - destruct (first _); simpl; [|reflexivity].
    destruct (AddInterval.startedAt input); simpl;
      destruct (sessionExists _ _); reflexivity.
  - destruct (first _); reflexivity.
Qed.

(** Every action, by whichever caller, keeps [U] at one default at most. *)
Lemma server_oneDefault (U : string) (c : Call) (ctx : ActionAPIContext)
    (w : World) :
  primaryKeys (db w) ->
  atMostOneDefault U (db w) ->
  atMostOneDefault U (db (snd (server clock c ctx w))).
Proof.
  intros [Hk _] H.
  pose proof (server_presets_frame c ctx w) as Hframe.
  destruct c;
    try (unfold atMostOneDefault, defaultsOf in *; rewrite Hframe; exact H).
  - pose proof (createPreset_oneDefault clock U input ctx w H) as Hc.
    revert Hc. unfold server, bind.
    destruct (createPreset clock input ctx w) as [[r|e|e] w']; auto.
  - pose proof (updatePreset_oneDefault clock U input ctx w Hk H) as Hc.
    revert Hc. unfold server, bind.
    destruct (updatePreset clock input ctx w) as [[r|e|e] w']; auto.
Qed.

Lemma run_oneDefault (U : string) (rs : list Request) (w : World) :
  primaryKeys (db w) ->
  atMostOneDefault U (db w) ->
  atMostOneDefault U (db (run clock rs w)).
Proof.
  revert w. induction rs as [|r rs IH]; intros w Hk H; simpl; [exact H|].
  apply IH.
  - now apply server_primaryKeys.
  - now apply server_oneDefault.
Qed.

(** X25. In every store reached from the empty one, whoever the callers
    were and whichever of the seven actions they called, each owner has at
    most one default preset. *)
Lemma reachable_oneDefault (U : string) (rs : list Request) :
  atMostOneDefault U (db (run clock rs emptyWorld)).
Proof.
  apply run_oneDefault.
  - exact emptyDb_primaryKeys.
  - unfold atMostOneDefault. simpl. lia.
Qed.

(** C1. For every user [U], after any sequence of [createPreset] and
    [updatePreset] calls made by [U], from a store in which [U] has at
    most one default preset (and ids are primary keys), [U] still has at
    most one preset with [isDefault = true]. *)
Theorem one_default_per_owner (U : string) (calls : list PresetCall) (w : World) :
  primaryKeys (db w) ->
  atMostOneDefault U (db w) ->
  atMostOneDefault U (db (run clock (map (presetRequest U) calls) w)).
Proof.
  intros Hk H. now apply run_oneDefault.
Qed.

End DefaultPreset.

(** * The authorization guard *)

Section Guard.

Variable clock : nat -> Date.

(** C8. Whatever the action, without an authenticated identity in the
    context the call throws [UNAUTHORIZED] and the world is the one it
    started in: no statement was issued on the store, hence no read and
    no write. *)
Theorem unauthorized_before_store_access (c : Call) (ctx : ActionAPIContext)
    (w : World) :
  identity ctx = None ->
  server clock c ctx w = (Thrown UNAUTHORIZED, w).
Proof.
  intros H. destruct c; run_handler; rewrite H; reflexivity.
Qed.

End Guard.

(** * Updating a preset *)

Section UpdatePresetFacts.

Variable clock : nat -> Date.

Lemma noField_length (input : UpdatePreset.input) :
  noField input <-> updateDataLength input = 0%nat.
Proof.
  unfold noField, updateDataLength. split.
  - intros (-> & -> & -> & -> & -> & -> & ->). reflexivity.
  - destruct (UpdatePreset.name input), (UpdatePreset.focusMinutes input),
      (UpdatePreset.shortBreakMinutes input),
      (UpdatePreset.longBreakMinutes input),
      (UpdatePreset.cyclesBeforeLongBreak input),
      (UpdatePreset.cyclesPerBlock input),
      (UpdatePreset.isDefault input); simpl; try discriminate.
    intros _. repeat split.
Qed.

(** The preset a caller owns under an id is the one the handler finds. *)
Lemma owned_preset_found (u : User) (i : Z) (d : Db) (existing : TimerPresets.row) :
  primaryKeys d ->
  In existing (rows (timerPresets d)) ->
  TimerPresets.id existing = i ->
  TimerPresets.ownerId existing = user_id u ->
  select_where (presetIs i u) (timerPresets d) = [existing].
Proof.
  intros [[Hnd _] _] Hin Hid Hown. unfold select_where.
  apply (filter_by_key TimerPresets.id); auto.
  - unfold presetIs, ownedBy. rewrite Hid, Hown, Z.eqb_refl, String.eqb_refl.
    reflexivity.
  - intros x Hx. apply presetIs_id in Hx. congruence.
Qed.

(** C6. For a preset the caller owns, [updatePreset] with no optional
    field supplied succeeds and returns the existing row; the database is
    the same before and after (so [updatedAt] is not refreshed), no date
    is read and the only statement issued is the lookup. *)
Theorem updatePreset_no_field_unchanged (u : User) (input : UpdatePreset.input)
    (ctx : ActionAPIContext) (w : World) (existing : TimerPresets.row) :
  identity ctx = Some u ->
  primaryKeys (db w) ->
  In existing (rows (timerPresets (db w))) ->
  TimerPresets.id existing = UpdatePreset.id input ->
  TimerPresets.ownerId existing = user_id u ->
  noField input ->
  updatePreset clock input ctx w =
    (Returned (Some existing),
     {| db := db w; ticks := ticks w;
        trace := trace w ++ [Select TimerPresetsT] |}).
Proof.
  intros Hu Hk Hin Hid Hown Hno.
  pose proof (owned_preset_found u _ _ _ Hk Hin Hid Hown) as Hfound.
  pose proof (proj1 (noField_length input) Hno) as Hlen.
  destruct Hno as (_ & _ & _ & _ & _ & _ & Hdef).
  run_handler. rewrite Hu. simpl. rewrite Hfound. simpl.
  rewrite Hdef, Hlen. reflexivity.
Qed.

(** C7. For a preset the caller owns and any partial input,
    [updatePreset] returns the stored row after the call; each column of
    it holds the supplied value when the input has the field and the prior
    value when it has not; [id], [ownerId] and [createdAt] are never
    touched; and as soon as one field is supplied [updatedAt] is the date
    read for the update. *)
Theorem updatePreset_changes_supplied_fields (u : User)
    (input : UpdatePreset.input) (ctx : ActionAPIContext) (w : World)
    (existing : TimerPresets.row) :
  identity ctx = Some u ->
  primaryKeys (db w) ->
  In existing (rows (timerPresets (db w))) ->
  TimerPresets.id existing = UpdatePreset.id input ->
  TimerPresets.ownerId existing = user_id u ->
  exists (preset : TimerPresets.row) (w' : World),
    updatePreset clock input ctx w = (Returned (Some preset), w') /\
    select_where (fun p => TimerPresets.id p =? UpdatePreset.id input)
      (timerPresets (db w')) = [preset] /\
    TimerPresets.id preset = TimerPresets.id existing /\
    TimerPresets.ownerId preset = TimerPresets.ownerId existing /\
    TimerPresets.createdAt preset = TimerPresets.createdAt existing /\
    TimerPresets.name preset =
      nullish (UpdatePreset.name input) (TimerPresets.name existing) /\
    TimerPresets.focusMinutes preset =
      nullish (UpdatePreset.focusMinutes input)
        (TimerPresets.focusMinutes existing) /\
    TimerPresets.shortBreakMinutes preset =
      nullish (UpdatePreset.shortBreakMinutes input)
        (TimerPresets.shortBreakMinutes existing) /\
    TimerPresets.longBreakMinutes preset =
      match UpdatePreset.longBreakMinutes input with
      | Some v => Some v
      | None => TimerPresets.longBreakMinutes existing
      end /\
    TimerPresets.cyclesBeforeLongBreak preset =
      match UpdatePreset.cyclesBeforeLongBreak input with
      | Some v => Some v
      | None => TimerPresets.cyclesBeforeLongBreak existing
      end /\
    TimerPresets.cyclesPerBlock preset =
      match UpdatePreset.cyclesPerBlock input with
      | Some v => Some v
      | None => TimerPresets.cyclesPerBlock existing
      end /\
    TimerPresets.isDefault preset =
      nullish (UpdatePreset.isDefault input) (TimerPresets.isDefault existing) /\
    (noField input ->
     TimerPresets.updatedAt preset = TimerPresets.updatedAt existing) /\
    (~ noField input ->
     TimerPresets.updatedAt preset =
       clock (if truthy_bool (UpdatePreset.isDefault input)
              then S (ticks w) else ticks w)).
Proof.
  intros Hu Hk Hin Hid Hown.
  pose proof (owned_preset_found u _ _ _ Hk Hin Hid Hown) as Hfound.
  pose proof Hk as [[Hnd _] _].
  assert (Hsel : presetIs (UpdatePreset.id input) u existing = true).
  { unfold presetIs, ownedBy.
    now rewrite Hid, Hown, Z.eqb_refl, String.eqb_refl. }
  destruct (Nat.eqb (updateDataLength input) 0) eqn:Hlen.
  - (* nothing supplied *)
    apply Nat.eqb_eq in Hlen.
    pose proof (proj2 (noField_length input) Hlen) as Hno.
    exists existing. eexists. split.
    + now apply updatePreset_no_field_unchanged with (u := u).
    + pose proof Hno as Hno'.
      destruct Hno' as (-> & -> & -> & -> & -> & -> & ->). simpl.
      repeat split; auto.
      * apply (filter_by_key TimerPresets.id); auto.
        -- now apply Z.eqb_eq.
        -- intros x Hx. apply Z.eqb_eq in Hx. congruence.
      * intros Hsome. contradiction.
  - (* at least one field *)
    assert (Hsome : ~ noField input).
    { intros Hno. apply noField_length in Hno. rewrite Hno in Hlen.
      discriminate. }
    run_handler. rewrite Hu. simpl. rewrite Hfound. simpl. rewrite Hlen.
    unfold select_where in Hfound.
    destruct (truthy_bool (UpdatePreset.isDefault input)) eqn:Ht; simpl.
    + set (clear := fun r : TimerPresets.row =>
             if ownedBy u r && Bool.eqb (TimerPresets.isDefault r) true
             then TimerPresets.overwrite (clearDefault (clock (ticks w))) r
             else r).
      assert (Hcid : forall x, TimerPresets.id (clear x) = TimerPresets.id x).
      { intros x. unfold clear. now destruct (_ && _). }
      assert (Hcsel : presetIs (UpdatePreset.id input) u (clear existing) = true).
      { unfold clear. now destruct (_ && _). }
      assert (Hclear : filter (presetIs (UpdatePreset.id input) u)
                         (map clear (rows (timerPresets (db w))))
                       = [clear existing]).
      { apply (filter_by_key_map TimerPresets.id); auto.
        intros x Hx. apply presetIs_id in Hx. congruence. }
      rewrite Hclear. simpl. eexists. eexists. split; [reflexivity|].
      simpl. unfold select_where. simpl. split.
      * rewrite (filter_by_key_map TimerPresets.id _ _ _ (clear existing)).
        -- rewrite Hcsel. reflexivity.
        -- rewrite map_map. now rewrite (map_ext _ TimerPresets.id) by exact Hcid.
        -- intros x. now destruct (presetIs _ _ x).
        -- apply in_map. exact Hin.
        -- rewrite Hcsel. simpl. apply Z.eqb_eq. now rewrite Hcid.
        -- intros x Hx. apply Z.eqb_eq in Hx. rewrite Hx, Hcid. auto.
      * revert Ht. destruct (UpdatePreset.isDefault input) as [[|]|];
          try discriminate. intros _.
        unfold clear. destruct (_ && _); simpl;
          repeat split; auto; intros Hno; contradiction.
    + rewrite Hfound. simpl. eexists. eexists. split; [reflexivity|].
      simpl. unfold select_where. simpl. split.
      * rewrite (filter_by_key_map TimerPresets.id _ _ _ existing); auto.
        -- now rewrite Hsel.
        -- intros x. now destruct (presetIs _ _ x).
        -- rewrite Hsel. simpl. now apply Z.eqb_eq.
        -- intros x Hx. apply Z.eqb_eq in Hx. congruence.
      * repeat split; auto; intros Hno; contradiction.
Qed.

End UpdatePresetFacts.

(** * Creating a default preset *)

Section CreatePresetFacts.

Variable clock : nat -> Date.

(** C9. When the caller creates a preset with [isDefault = true], every
    preset [p] the caller already has, whether it was a default or not,
    is stored with [isDefault = false] and [updatedAt] set to the date
    just read, its other columns unchanged; the rows of other owners are
    left alone; the update is issued before the insert of the new row. *)
Theorem createPreset_default_clears_every_preset (u : User)
    (input : CreatePreset.input) (ctx : ActionAPIContext) (w : World)
    (p : TimerPresets.row) :
  identity ctx = Some u ->
  CreatePreset.isDefault input = Some true ->
  In p (rows (timerPresets (db w))) ->
  TimerPresets.ownerId p = user_id u ->
  exists (preset : TimerPresets.row) (w' : World),
    createPreset clock input ctx w = (Returned preset, w') /\
    rows (timerPresets (db w')) =
      (map (fun r => if ownedBy u r
                     then TimerPresets.overwrite (clearDefault (clock (ticks w))) r
                     else r)
           (rows (timerPresets (db w))) ++ [preset])%list /\
    In {| TimerPresets.id := TimerPresets.id p;
          TimerPresets.ownerId := TimerPresets.ownerId p;
          TimerPresets.name := TimerPresets.name p;
          TimerPresets.focusMinutes := TimerPresets.focusMinutes p;
          TimerPresets.shortBreakMinutes := TimerPresets.shortBreakMinutes p;
          TimerPresets.longBreakMinutes := TimerPresets.longBreakMinutes p;
          TimerPresets.cyclesBeforeLongBreak := TimerPresets.cyclesBeforeLongBreak p;
          TimerPresets.cyclesPerBlock := TimerPresets.cyclesPerBlock p;
          TimerPresets.isDefault := false;
          TimerPresets.createdAt := TimerPresets.createdAt p;
          TimerPresets.updatedAt := clock (ticks w) |}
       (rows (timerPresets (db w'))) /\
    TimerPresets.isDefault preset = true /\
    trace w' = (trace w ++ [Update TimerPresetsT; Insert TimerPresetsT])%list.
Proof.
  intros Hu Hdef Hin Hown.
  run_handler. rewrite Hu, Hdef. simpl.
  eexists. eexists. split; [reflexivity|]. simpl.
  split; [reflexivity|]. split; [|split].
  - apply in_or_app. left. apply in_map_iff. exists p. split; [|exact Hin].
    unfold ownedBy. rewrite Hown, String.eqb_refl.
    unfold TimerPresets.overwrite. simpl. now rewrite Hown.
  - now rewrite Hdef.
  - now rewrite <- app_assoc.
Qed.

End CreatePresetFacts.

(** * Sessions and their intervals *)

Section SessionFacts.

Variable clock : nat -> Date.

Lemma sessionIs_id (i : Z) (u : User) (s : FocusSessions.row) :
  sessionIs i u s = true -> FocusSessions.id s = i.
Proof.
  unfold sessionIs. intros H. apply andb_prop in H. destruct H as [H _].
  now apply Z.eqb_eq in H.
Qed.

Lemma owned_session_found (u : User) (i : Z) (d : Db) (s : FocusSessions.row) :
  primaryKeys d ->
  In s (rows (focusSessions d)) ->
  FocusSessions.id s = i ->
  FocusSessions.userId s = user_id u ->
  select_where (sessionIs i u) (focusSessions d) = [s].
Proof.
  intros [_ [[Hnd _] _]] Hin Hid Hown. unfold select_where.
  apply (filter_by_key FocusSessions.id); auto.
  - unfold sessionIs, sessionOf. rewrite Hid, Hown, Z.eqb_refl, String.eqb_refl.
    reflexivity.
  - intros x Hx. apply sessionIs_id in Hx. congruence.
Qed.

Lemma foreign_session_not_found (u : User) (i : Z) (d : Db) :
  (forall s, In s (rows (focusSessions d)) ->
             FocusSessions.id s = i -> FocusSessions.userId s <> user_id u) ->
  select_where (sessionIs i u) (focusSessions d) = [].
Proof.
  intros H. unfold select_where. apply filter_nothing. intros s Hs.
  unfold sessionIs, sessionOf.
  destruct (FocusSessions.id s =? i) eqn:Hid; [|reflexivity].
  apply Z.eqb_eq in Hid. simpl. apply String.eqb_neq. now apply H.
Qed.

(** C4. When the caller has no session under the id (there is none, or it
    belongs to somebody else), [completeSession], [addInterval] and
    [listIntervals] each throw [NOT_FOUND] after one statement, the
    lookup of the session by id and [userId]: the database is unchanged,
    so no session is modified and no interval inserted. *)
Theorem session_actions_not_found (u : User) (ctx : ActionAPIContext)
    (w : World) (i : Z) :
  identity ctx = Some u ->
  (forall s, In s (rows (focusSessions (db w))) ->
             FocusSessions.id s = i -> FocusSessions.userId s <> user_id u) ->
  let w' := {| db := db w; ticks := ticks w;
               trace := trace w ++ [Select FocusSessionsT] |} in
  (forall input, CompleteSession.id input = i ->
     completeSession clock input ctx w = (Thrown NOT_FOUND, w')) /\
  (forall input, AddInterval.sessionId input = i ->
     addInterval clock input ctx w = (Thrown NOT_FOUND, w')) /\
  (forall input, ListIntervals.sessionId input = i ->
     listIntervals input ctx w = (Thrown NOT_FOUND, w')).
Proof.
  intros Hu Hnone w'.
  pose proof (foreign_session_not_found u i (db w) Hnone) as Hfound.
  repeat split; intros input Hid; run_handler; rewrite Hu; simpl;
    rewrite Hid, Hfound; reflexivity.
Qed.

(** What [completeSession] does to a session the caller owns. *)
Lemma completeSession_owned (u : User) (input : CompleteSession.input)
    (ctx : ActionAPIContext) (w : World) (s : FocusSessions.row) :
  identity ctx = Some u ->
  primaryKeys (db w) ->
  In s (rows (focusSessions (db w))) ->
  FocusSessions.id s = CompleteSession.id input ->
  FocusSessions.userId s = user_id u ->
  let updated :=
    FocusSessions.overwrite (completion input s (clock (ticks w))) s in
  completeSession clock input ctx w =
    (Returned (Some updated),
     {| db := setFocusSessions
                {| rows := map (fun r => if FocusSessions.id r =? FocusSessions.id s
                                         then updated else r)
                               (rows (focusSessions (db w)));
                   nextId := nextId (focusSessions (db w)) |}
                (db w);
        ticks := S (ticks w);
        trace := trace w ++ [Select FocusSessionsT; Update FocusSessionsT] |}).
Proof.
  intros Hu Hk Hin Hid Hown updated.
  pose proof (owned_session_found u _ _ _ Hk Hin Hid Hown) as Hfound.
  destruct Hk as [_ [[Hnd _] _]].
  assert (Hone : filter (fun r => FocusSessions.id r =? CompleteSession.id input)
                   (rows (focusSessions (db w))) = [s]).
  { apply (filter_by_key FocusSessions.id); auto.
    - now apply Z.eqb_eq.
    - intros x Hx. apply Z.eqb_eq in Hx. congruence. }
  run_handler. rewrite Hu. simpl. rewrite Hfound. simpl.
  rewrite Hone. simpl. rewrite <- app_assoc. simpl.
  f_equal. f_equal. f_equal. f_equal.
  apply map_ext_in. intros r Hr. rewrite Hid.
  destruct (FocusSessions.id r =? CompleteSession.id input) eqn:Hr'; [|reflexivity].
  apply Z.eqb_eq in Hr'.
  assert (r = s) as ->; [|reflexivity].
  apply (key_injective FocusSessions.id (rows (focusSessions (db w)))); auto.
  congruence.
Qed.

(** C5. For a session [s] the caller owns, [completeSession] succeeds
    and returns the stored row after the call, in which each of
    [actualFocusMinutes], [actualBreakMinutes], [completedCycles] and
    [meta] absent from the input has the value it had in [s], [status]
    is [completed] when none is supplied, and [endedAt] is the date read
    during the call. *)
Theorem completeSession_keeps_absent_counters (u : User)
    (input : CompleteSession.input) (ctx : ActionAPIContext) (w : World)
    (s : FocusSessions.row) :
  identity ctx = Some u ->
  primaryKeys (db w) ->
  In s (rows (focusSessions (db w))) ->
  FocusSessions.id s = CompleteSession.id input ->
  FocusSessions.userId s = user_id u ->
  exists (updated : FocusSessions.row) (w' : World),
    completeSession clock input ctx w = (Returned (Some updated), w') /\
    sessionAt (CompleteSession.id input) (db w') = Some updated /\
    (CompleteSession.actualFocusMinutes input = None ->
     FocusSessions.actualFocusMinutes updated = FocusSessions.actualFocusMinutes s) /\
    (CompleteSession.actualBreakMinutes input = None ->
     FocusSessions.actualBreakMinutes updated = FocusSessions.actualBreakMinutes s) /\
    (CompleteSession.completedCycles input = None ->
     FocusSessions.completedCycles updated = FocusSessions.completedCycles s) /\
    (CompleteSession.meta input = None ->
     FocusSessions.meta updated = FocusSessions.meta s) /\
    (CompleteSession.status input = None ->
     FocusSessions.status updated = completed) /\
    FocusSessions.endedAt updated = Some (clock (ticks w)).
Proof.
  intros Hu Hk Hin Hid Hown.
  eexists. eexists. split.
  - exact (completeSession_owned u input ctx w s Hu Hk Hin Hid Hown).
  - simpl. split.
    + unfold sessionAt, select_where. simpl.
      destruct Hk as [_ [[Hnd _] _]].
      rewrite (filter_by_key_map FocusSessions.id _ _ _ s); auto.
      * rewrite Z.eqb_refl. reflexivity.
      * intros x.
        destruct (FocusSessions.id x =? FocusSessions.id s) eqn:Hx; [|reflexivity].
        apply Z.eqb_eq in Hx. simpl. now rewrite Hx.
      * rewrite Z.eqb_refl. simpl. now apply Z.eqb_eq.
      * intros x Hx. apply Z.eqb_eq in Hx. congruence.
    + repeat split; intros ->; reflexivity.
Qed.

(** C10. For a session [s] the caller owns, [completeSession] leaves
    [id], [userId], [presetId], [label], [plannedFocusMinutes],
    [plannedCycles] and [startedAt] of [s] as they were; every other
    session row stays in place unchanged; the presets and the intervals
    are the same tables before and after. *)
Theorem completeSession_frame (u : User) (input : CompleteSession.input)
    (ctx : ActionAPIContext) (w : World) (s : FocusSessions.row) :
  identity ctx = Some u ->
  primaryKeys (db w) ->
  In s (rows (focusSessions (db w))) ->
  FocusSessions.id s = CompleteSession.id input ->
  FocusSessions.userId s = user_id u ->
  exists (updated : FocusSessions.row) (w' : World),
    completeSession clock input ctx w = (Returned (Some updated), w') /\
    FocusSessions.id updated = FocusSessions.id s /\
    FocusSessions.userId updated = FocusSessions.userId s /\
    FocusSessions.presetId updated = FocusSessions.presetId s /\
    FocusSessions.label updated = FocusSessions.label s /\
    FocusSessions.plannedFocusMinutes updated = FocusSessions.plannedFocusMinutes s /\
    FocusSessions.plannedCycles updated = FocusSessions.plannedCycles s /\
    FocusSessions.startedAt updated = FocusSessions.startedAt s /\
    rows (focusSessions (db w')) =
      map (fun r => if FocusSessions.id r =? FocusSessions.id s then updated else r)
          (rows (focusSessions (db w))) /\
    (forall n r, nth_error (rows (focusSessions (db w))) n = Some r ->
                 r <> s ->
                 nth_error (rows (focusSessions (db w'))) n = Some r) /\
    nextId (focusSessions (db w')) = nextId (focusSessions (db w)) /\
    timerPresets (db w') = timerPresets (db w) /\
    focusIntervals (db w') = focusIntervals (db w).
Proof.
  intros Hu Hk Hin Hid Hown.
  eexists. eexists. split.
  - exact (completeSession_owned u input ctx w s Hu Hk Hin Hid Hown).
  - simpl. repeat split; try reflexivity.
    intros n r Hn Hne. rewrite nth_error_map, Hn. simpl.
    destruct (FocusSessions.id r =? FocusSessions.id s) eqn:Hr; [|reflexivity].
    exfalso. apply Hne. apply Z.eqb_eq in Hr.
    destruct Hk as [_ [[Hnd _] _]].
    apply (key_injective FocusSessions.id (rows (focusSessions (db w)))); auto.
    now apply nth_error_In with (n := n).
Qed.

End SessionFacts.

(** * Starting a session *)

Section StartSessionFacts.

Variable clock : nat -> Date.

(** A supplied preset id other than [0] is checked: when the caller owns
    no preset under it, the call throws [NOT_FOUND] after the lookup and
    the database is unchanged. *)
Lemma startSession_unknown_preset (u : User) (input : StartSession.input)
    (ctx : ActionAPIContext) (w : World) (i : Z) :
  identity ctx = Some u ->
  StartSession.presetId input = Some i ->
  i <> 0 ->
  (forall p, In p (rows (timerPresets (db w))) ->
             TimerPresets.id p = i -> TimerPresets.ownerId p <> user_id u) ->
  startSession clock input ctx w =
    (Thrown NOT_FOUND,
     {| db := db w; ticks := ticks w;
        trace := trace w ++ [Select TimerPresetsT] |}).
Proof.
  intros Hu Hi Hnz Hnone.
  assert (Hfound : select_where (presetIs i u) (timerPresets (db w)) = []).
  { unfold select_where. apply filter_nothing. intros p Hp.
    unfold presetIs, ownedBy.
    destruct (TimerPresets.id p =? i) eqn:Hid; [|reflexivity].
    apply Z.eqb_eq in Hid. simpl. apply String.eqb_neq. now apply Hnone. }
  run_handler. rewrite Hu, Hi. simpl.
  apply Z.eqb_neq in Hnz. rewrite Hnz. simpl. rewrite Hfound. reflexivity.
Qed.

(** With [presetId: 0] the guard [if (input.presetId)] is false: the
    preset is not looked up, and the insert is the only statement.  In a
    store without a preset of id [0] the insert is refused for the foreign
    key of [presetId]. *)
Lemma startSession_presetId_zero_refused (u : User) (input : StartSession.input)
    (ctx : ActionAPIContext) (w : World) :
  identity ctx = Some u ->
  StartSession.presetId input = Some 0 ->
  presetAt 0 (db w) = None ->
  startSession clock input ctx w =
    (Failed FOREIGN_KEY_CONSTRAINT,
     {| db := db w; ticks := S (ticks w);
        trace := trace w ++ [Insert FocusSessionsT] |}).
Proof.
  intros Hu Hzero Hnone.
  assert (Hfk : forall now i,
             presetExists (db w) (sessionValues input u now i) = false).
  { intros now i. unfold presetExists. simpl. rewrite Hzero.
    unfold presetAt, select_where in Hnone.
    induction (rows (timerPresets (db w))) as [|p l IH]; [reflexivity|].
    simpl in *. destruct (TimerPresets.id p =? 0); [discriminate|].
    simpl. now apply IH. }
  run_handler. rewrite Hu, Hzero. simpl. rewrite Hfk. reflexivity.
Qed.

(** C3, at the input where the code departs from it.  On the empty store
    no preset has id [0].  [startSession] with [presetId: 0] does not look
    the preset up, because the guard [if (input.presetId)] takes [0] for
    an absent id: the one statement it issues is the insert, which the
    store refuses for the foreign key.  So the call does fail and stores
    no session, but with the error of the store, not with [NOT_FOUND]. *)
Theorem startSession_presetId_zero_not_checked :
  presetAt 0 (db emptyWorld) = None /\
  startSession clock (newSession (Some 0)) (signedIn alice) emptyWorld =
    (Failed FOREIGN_KEY_CONSTRAINT,
     {| db := emptyDb; ticks := 1; trace := [Insert FocusSessionsT] |}) /\
  fst (startSession clock (newSession (Some 0)) (signedIn alice) emptyWorld)
  <> Thrown NOT_FOUND.
Proof.
  split; [reflexivity|]. split; [reflexivity|]. discriminate.
Qed.

End StartSessionFacts.

(** * The life of a session *)

Section SessionStatusFacts.

Variable clock : nat -> Date.

(** The three things an action can do to the table of sessions. *)
Lemma server_sessions (c : Call) (ctx : ActionAPIContext) (w : World) :
  let before := rows (focusSessions (db w)) in
  let after := rows (focusSessions (db (snd (server clock c ctx w)))) in
  after = before \/
  (exists input u now i,
      c = StartSessionCall input /\
      after = (before ++ [sessionValues input u now i])%list) \/
  (exists input s now,
      c = CompleteSessionCall input /\
      after = map (fun r => if FocusSessions.id r =? CompleteSession.id input
                            then FocusSessions.overwrite (completion input s now) r
                            else r) before).
Proof.
  destruct c; run_handler; destruct (identity ctx) as [u|]; simpl; auto.
  - destruct (truthy_bool _); simpl; auto.
  - destruct (first _); simpl; auto.
    destruct (truthy_bool _); simpl; destruct (Nat.eqb _ 0); simpl; auto.
  - destruct (truthy_number _); simpl;
      [destruct (first _); simpl; auto|];
      (destruct (presetExists _ _); simpl; auto);
      right; left; eexists; eexists; eexists; eexists; split; reflexivity.
  - destruct (first _) as [s|]; simpl; auto.
    right. right. eexists. eexists. eexists. split; reflexivity.
  - destruct (first _); simpl; auto.
    destruct (AddInterval.startedAt input); simpl;
      destruct (sessionExists _ _); simpl; auto.
  - destruct (first _); simpl; auto.
Qed.

Lemma server_endedWhenLeft (c : Call) (ctx : ActionAPIContext) (w : World) :
  Forall endedWhenLeft (rows (focusSessions (db w))) ->
  Forall endedWhenLeft (rows (focusSessions (db (snd (server clock c ctx w))))).
Proof.
  intros H.
  destruct (server_sessions c ctx w)
    as [-> | [(input & u & now & i & _ & ->) | (input & s & now & _ & ->)]].
  - exact H.
  - apply Forall_app. split; [exact H|].
    constructor; [|constructor]. intros Hs. now elim Hs.
  - rewrite Forall_map. eapply Forall_impl; [|exact H].
    intros r Hr. destruct (FocusSessions.id r =? _); [|exact Hr].
    intros _. discriminate.
Qed.

End SessionStatusFacts.

(** * Runs of requests *)

Section Runs.

Variable clock : nat -> Date.

Lemma run_endedWhenLeft (rs : list Request) (w : World) :
  Forall endedWhenLeft (rows (focusSessions (db w))) ->
  Forall endedWhenLeft (rows (focusSessions (db (run clock rs w)))).
Proof.
  revert w. induction rs as [|r rs IH]; intros w H; simpl; [exact H|].
  apply IH. now apply server_endedWhenLeft.
Qed.

Lemma first_filter_holds {R : Type} (p : R -> bool) (l : list R) (x : R) :
  first (filter p l) = Some x -> p x = true.
Proof.
  intros H. assert (Hin : In x (filter p l)).
  { destruct (filter p l); [discriminate|]. injection H as ->. now left. }
  now apply filter_In in Hin.
Qed.

(** What a call of [completeSession] does to the sessions, by outcome. *)
Lemma completeSession_sessions (input : CompleteSession.input)
    (ctx : ActionAPIContext) (w : World) :
  let before := rows (focusSessions (db w)) in
  let after :=
    rows (focusSessions (db (snd (server clock (CompleteSessionCall input) ctx w)))) in
  (returned (fst (completeSession clock input ctx w)) = false /\ after = before) \/
  (returned (fst (completeSession clock input ctx w)) = true /\
   exists s now,
      after = map (fun r => if FocusSessions.id r =? CompleteSession.id input
                            then FocusSessions.overwrite (completion input s now) r
                            else r) before).
Proof.
  run_handler. destruct (identity ctx) as [u|]; simpl; auto.
  destruct (first _) as [s|]; simpl; auto.
  right. split; [reflexivity|]. eexists. eexists. reflexivity.
Qed.

(** The session under an id after a request that does not reopen it: the
    same row as before, or a row just started, or a row just completed. *)
Lemma step_sessionAt (r : Request) (w : World) (i : Z) :
  reopensAt clock i r w = false ->
  sessionAt i (db (step clock r w)) = sessionAt i (db w) \/
  (sessionAt i (db w) = None /\
   exists s', sessionAt i (db (step clock r w)) = Some s' /\
              FocusSessions.status s' = in_progress /\
              FocusSessions.endedAt s' = None) \/
  (exists s', sessionAt i (db (step clock r w)) = Some s' /\
              terminal (FocusSessions.status s') = true /\
              FocusSessions.endedAt s' <> None).
Proof.
  intros Hre. unfold step, sessionAt, select_where.
  destruct r as [ctx c]. simpl in *. unfold reopensAt in Hre. simpl in Hre.
  assert (Hother :
            (forall input, c <> CompleteSessionCall input) ->
            first (filter (fun s => FocusSessions.id s =? i)
                     (rows (focusSessions (db (snd (server clock c ctx w))))))
            = first (filter (fun s => FocusSessions.id s =? i)
                       (rows (focusSessions (db w)))) \/
            (first (filter (fun s => FocusSessions.id s =? i)
                      (rows (focusSessions (db w)))) = None /\
             exists s',
               first (filter (fun s => FocusSessions.id s =? i)
                        (rows (focusSessions (db (snd (server clock c ctx w))))))
               = Some s' /\
               FocusSessions.status s' = in_progress /\
               FocusSessions.endedAt s' = None)).
  { intros Hc.
    destruct (server_sessions clock c ctx w)
      as [-> | [(input & u & now & n & _ & ->) | (input & s & now & Heq & _)]].
    - now left.
    - rewrite filter_app.
      destruct (filter _ (rows (focusSessions (db w)))) as [|x l]; simpl.
      + destruct (n =? i); simpl; [|now left].
        right. split; [reflexivity|]. eexists. repeat split.
      + now left.
    - exfalso. now apply (Hc input). }
  destruct c as [input|input| |input|input|input|input];
    try (destruct Hother as [H|H]; [discriminate|now left|now (right; left)]).
  destruct (completeSession_sessions input ctx w)
    as [[Hret ->] | (Hret & s & now & ->)]; [now left|].
  rewrite first_filter_map
    by (intros y; now destruct (FocusSessions.id y =? CompleteSession.id input)).
  destruct (first (filter _ (rows (focusSessions (db w))))) as [x|] eqn:Hx;
    [|now left].
  simpl. apply first_filter_holds in Hx. apply Z.eqb_eq in Hx.
  destruct (FocusSessions.id x =? CompleteSession.id input) eqn:Hsame;
    [|now left].
  apply Z.eqb_eq in Hsame.
  assert (Hid : (CompleteSession.id input =? i) = true)
    by (apply Z.eqb_eq; congruence).
  rewrite Hid, Hret in Hre. simpl in Hre.
  right. right. eexists. split; [reflexivity|]. simpl. split; [|discriminate].
  (* [status: "in_progress"] on this id would have gone through *)
  destruct (CompleteSession.status input) as [[| |]|]; simpl; auto.
Qed.

Lemma run_sessionAt_endedIffLeft (rs : list Request) (w : World) (i : Z) :
  neverReopened clock i rs w = true ->
  (forall s, sessionAt i (db w) = Some s -> endedIffLeft s) ->
  forall s', sessionAt i (db (run clock rs w)) = Some s' -> endedIffLeft s'.
Proof.
  revert w. induction rs as [|r rs IH]; intros w Hre H; simpl; [exact H|].
  simpl in Hre. apply andb_prop in Hre. destruct Hre as [Hr Hrs].
  apply negb_true_iff in Hr.
  apply IH; [exact Hrs|].
  destruct (step_sessionAt r w i Hr)
    as [-> | [(_ & x & -> & Hst & Hend) | (x & -> & Hst & Hend)]].
  - exact H.
  - intros s [= <-]. unfold endedIffLeft. rewrite Hst, Hend.
    split; intros Hs; now elim Hs.
  - intros s [= <-]. unfold endedIffLeft. split; intros _; [|exact Hend].
    intros Heq. rewrite Heq in Hst. discriminate.
Qed.

Lemma run_statusAt_terminal (rs : list Request) (w : World) (i : Z)
    (a : SessionStatus) :
  neverReopened clock i rs w = true ->
  statusAt i (db w) = Some a ->
  terminal a = true ->
  exists b, statusAt i (db (run clock rs w)) = Some b /\ terminal b = true.
Proof.
  revert w a. induction rs as [|r rs IH]; intros w a Hre Ha Hterm; simpl;
    [eauto|].
  simpl in Hre. apply andb_prop in Hre. destruct Hre as [Hr Hrs].
  apply negb_true_iff in Hr.
  destruct (step_sessionAt r w i Hr)
    as [Hsame | [(Hnone & _) | (x & Hx & Hst & _)]].
  - apply (IH (step clock r w) a Hrs); [|exact Hterm].
    unfold statusAt. rewrite Hsame. exact Ha.
  - unfold statusAt in Ha. rewrite Hnone in Ha. discriminate.
  - apply (IH (step clock r w) (FocusSessions.status x) Hrs); [|exact Hst].
    unfold statusAt. now rewrite Hx.
Qed.

(** C2, as amended.  Over any sequence of requests, a session that has
    left [in_progress] has its [endedAt] set.  And for each session: as
    long as no [completeSession] call on its id with [status:
    "in_progress"] goes through, whatever is done to other sessions and
    whatever is attempted and refused, its [endedAt] is set exactly when
    its status is not [in_progress], and once [completed] or [cancelled]
    it stays [completed] or [cancelled]. *)
Theorem session_status_unless_reopened (i : Z) (rs : list Request) (w : World) :
  (Forall endedWhenLeft (rows (focusSessions (db w))) ->
   Forall endedWhenLeft (rows (focusSessions (db (run clock rs w))))) /\
  (neverReopened clock i rs w = true ->
   ((forall s, sessionAt i (db w) = Some s -> endedIffLeft s) ->
    forall s', sessionAt i (db (run clock rs w)) = Some s' -> endedIffLeft s') /\
   (forall a,
       statusAt i (db w) = Some a ->
       terminal a = true ->
       exists b, statusAt i (db (run clock rs w)) = Some b /\ terminal b = true)).
Proof.
  split; [now apply run_endedWhenLeft|].
  intros Hre. split.
  - now apply run_sessionAt_endedIffLeft.
  - intros a. now apply run_statusAt_terminal.
Qed.

End Runs.

(** * Concrete runs *)

(** C2, refuted as stated.  Alice starts session 1 and completes it; a
    further [completeSession] with [status: "in_progress"] is accepted: the
    session goes from [completed] back to [in_progress], and it then has an
    [endedAt] although it is [in_progress]. *)
Lemma completeSession_reopens_session :
  let reopened :=
    run sampleClock
      [by_ alice (CompleteSessionCall (finish 1 None (Some in_progress)))]
      sessionsWorld in
  statusAt 1 (db sessionsWorld) = Some completed /\
  Forall endedIffLeft (rows (focusSessions (db sessionsWorld))) /\
  statusAt 1 (db reopened) = Some in_progress /\
  ~ Forall endedIffLeft (rows (focusSessions (db reopened))).
Proof.
  repeat split.
  - constructor; [|constructor]. split; intros _; discriminate.
  - intros H. inversion H as [|s l [Hs _] _]; subst.
    apply Hs; [discriminate|reflexivity].
Qed.

(** The scenarios of the specification: two default presets created in a
    row leave the second one as the only default; a session is started,
    then completed with 23 minutes; an interval added to somebody else's
    session is refused and does not show up. *)
Example scenario_two_defaults :
  map TimerPresets.name (defaultsOf alice (db presetsWorld)) = ["Deep Work"%string].
Proof. reflexivity. Qed.

Example scenario_start_then_complete :
  option_map (fun s => (FocusSessions.status s, FocusSessions.actualFocusMinutes s))
    (sessionAt 1
       (db (run sampleClock [by_ alice (StartSessionCall (newSession None))]
              emptyWorld)))
  = Some (in_progress, 0) /\
  FocusSessions.status evening = completed /\
  FocusSessions.actualFocusMinutes evening = 23 /\
  FocusSessions.endedAt evening = Some (sampleClock 1).
Proof. repeat split. Qed.

Example scenario_interval_on_foreign_session :
  let w := run sampleClock [by_ bob (AddIntervalCall (newInterval 1))] sessionsWorld in
  fst (addInterval sampleClock (newInterval 1) (signedIn bob) sessionsWorld)
    = Thrown NOT_FOUND /\
  fst (listIntervals {| ListIntervals.sessionId := 1 |} (signedIn alice) w)
    = Returned [].
Proof. repeat split. Qed.

(** The sample worlds have primary keys. *)
Ltac concrete_keys :=
  repeat split; simpl;
  repeat (constructor; simpl);
  try (intuition discriminate); try reflexivity.

Lemma presetsWorld_primaryKeys : primaryKeys (db presetsWorld).
Proof. concrete_keys. Qed.

Lemma sessionsWorld_primaryKeys : primaryKeys (db sessionsWorld).
Proof. concrete_keys. Qed.

(** Alice, who has one default among her two presets, creates a third
    preset as the default and then makes the first one the default. *)
Lemma one_default_per_owner_witness :
  primaryKeys (db presetsWorld) /\
  atMostOneDefault alice (db presetsWorld) /\
  atMostOneDefault alice
    (db (run sampleClock
           (map (presetRequest alice)
              [ Create (newPreset "Pomodoro" (Some true));
                Change (changePreset 1 None (Some true)) ])
           presetsWorld)).
Proof.
  assert (Hk : primaryKeys (db presetsWorld)) by concrete_keys.
  assert (H1 : atMostOneDefault alice (db presetsWorld)).
  { unfold atMostOneDefault. simpl. lia. }
  split; [exact Hk|]. split; [exact H1|].
  apply (one_default_per_owner sampleClock alice _ presetsWorld Hk H1).
Defined.

(** Bob reopens his own session 2, then tries to reopen Alice's session 1
    and is refused: Alice's session stays completed with its [endedAt]. *)
Lemma session_status_unless_reopened_witness :
  let rs := [ by_ bob (CompleteSessionCall (finish 2 None (Some in_progress)));
              by_ bob (CompleteSessionCall (finish 1 None (Some in_progress))) ] in
  neverReopened sampleClock 1 rs sharedWorld = true /\
  neverReopened sampleClock 2 rs sharedWorld = false /\
  (forall s, sessionAt 1 (db sharedWorld) = Some s -> endedIffLeft s) /\
  statusAt 1 (db sharedWorld) = Some completed /\
  (forall s', sessionAt 1 (db (run sampleClock rs sharedWorld)) = Some s' ->
              endedIffLeft s') /\
  (exists b, statusAt 1 (db (run sampleClock rs sharedWorld)) = Some b /\
             terminal b = true).
Proof.
  intros rs.
  assert (Hre : neverReopened sampleClock 1 rs sharedWorld = true) by reflexivity.
  assert (Hiff : forall s, sessionAt 1 (db sharedWorld) = Some s -> endedIffLeft s).
  { intros s [= <-]. split; intros _; discriminate. }
  split; [exact Hre|]. split; [reflexivity|]. split; [exact Hiff|].
  split; [reflexivity|].
  destruct (session_status_unless_reopened sampleClock 1 rs sharedWorld)
    as [_ Hsession].
  destruct (Hsession Hre) as [Hkeeps Hstays].
  split; [exact (Hkeeps Hiff)|].
  exact (Hstays completed eq_refl eq_refl).
Defined.

(** Bob asks for session 1, which is Alice's. *)
Lemma session_actions_not_found_witness :
  identity (signedIn bob) = Some {| user_id := bob |} /\
  (forall s, In s (rows (focusSessions (db sessionsWorld))) ->
             FocusSessions.id s = 1 -> FocusSessions.userId s <> user_id {| user_id := bob |}) /\
  addInterval sampleClock (newInterval 1) (signedIn bob) sessionsWorld =
    (Thrown NOT_FOUND,
     {| db := db sessionsWorld; ticks := ticks sessionsWorld;
        trace := trace sessionsWorld ++ [Select FocusSessionsT] |}).
Proof.
  assert (Hnone : forall s, In s (rows (focusSessions (db sessionsWorld))) ->
             FocusSessions.id s = 1 ->
             FocusSessions.userId s <> user_id {| user_id := bob |}).
  { simpl. intros s [<-|[]] _. discriminate. }
  split; [reflexivity|]. split; [exact Hnone|].
  apply (session_actions_not_found sampleClock {| user_id := bob |} (signedIn bob)
           sessionsWorld 1 eq_refl Hnone).
  reflexivity.
Defined.

(** Alice completes her session again without any counter. *)
Lemma completeSession_keeps_absent_counters_witness :
  identity (signedIn alice) = Some {| user_id := alice |} /\
  primaryKeys (db sessionsWorld) /\
  In evening (rows (focusSessions (db sessionsWorld))) /\
  FocusSessions.id evening = CompleteSession.id (finish 1 None None) /\
  FocusSessions.userId evening = alice /\
  exists (updated : FocusSessions.row) (w' : World),
    completeSession sampleClock (finish 1 None None) (signedIn alice) sessionsWorld
      = (Returned (Some updated), w') /\
    sessionAt 1 (db w') = Some updated /\
    FocusSessions.actualFocusMinutes updated = 23 /\
    FocusSessions.status updated = completed.
Proof.
  assert (Hk : primaryKeys (db sessionsWorld)) by concrete_keys.
  assert (Hin : In evening (rows (focusSessions (db sessionsWorld))))
    by (left; reflexivity).
  split; [reflexivity|]. split; [exact Hk|]. split; [exact Hin|].
  split; [reflexivity|]. split; [reflexivity|].
  destruct (completeSession_keeps_absent_counters sampleClock
              {| user_id := alice |} (finish 1 None None) (signedIn alice)
              sessionsWorld evening eq_refl Hk Hin eq_refl eq_refl)
    as (updated & w' & Hrun & Hat & Hfocus & _ & _ & _ & Hstatus & _).
  exists updated, w'. repeat split; auto.
Defined.

(** Alice completes her session with 30 minutes. *)
Lemma completeSession_frame_witness :
  identity (signedIn alice) = Some {| user_id := alice |} /\
  primaryKeys (db sessionsWorld) /\
  In evening (rows (focusSessions (db sessionsWorld))) /\
  FocusSessions.id evening = CompleteSession.id (finish 1 (Some 30) None) /\
  FocusSessions.userId evening = alice /\
  exists (updated : FocusSessions.row) (w' : World),
    completeSession sampleClock (finish 1 (Some 30) None) (signedIn alice)
      sessionsWorld = (Returned (Some updated), w') /\
    FocusSessions.startedAt updated = FocusSessions.startedAt evening /\
    timerPresets (db w') = timerPresets (db sessionsWorld) /\
    focusIntervals (db w') = focusIntervals (db sessionsWorld).
Proof.
  assert (Hk : primaryKeys (db sessionsWorld)) by concrete_keys.
  assert (Hin : In evening (rows (focusSessions (db sessionsWorld))))
    by (left; reflexivity).
  split; [reflexivity|]. split; [exact Hk|]. split; [exact Hin|].
  split; [reflexivity|]. split; [reflexivity|].
  destruct (completeSession_frame sampleClock
              {| user_id := alice |} (finish 1 (Some 30) None) (signedIn alice)
              sessionsWorld evening eq_refl Hk Hin eq_refl eq_refl)
    as (updated & w' & Hrun & _ & _ & _ & _ & _ & _ & Hstart & _ & _ & _ & Hp & Hi).
  exists updated, w'. repeat split; auto.
Defined.

(** A request whose [locals] carries no user. *)
Lemma unauthorized_before_store_access_witness :
  identity anonymous = None /\
  server sampleClock (AddIntervalCall (newInterval 1)) anonymous sessionsWorld
    = (Thrown UNAUTHORIZED, sessionsWorld).
Proof.
  split; [reflexivity|].
  apply (unauthorized_before_store_access sampleClock
           (AddIntervalCall (newInterval 1)) anonymous sessionsWorld eq_refl).
Defined.

(** Alice updates her first preset with an empty set of fields. *)
Lemma updatePreset_no_field_unchanged_witness :
  identity (signedIn alice) = Some {| user_id := alice |} /\
  primaryKeys (db presetsWorld) /\
  In classic (rows (timerPresets (db presetsWorld))) /\
  TimerPresets.id classic = UpdatePreset.id (changePreset 1 None None) /\
  TimerPresets.ownerId classic = alice /\
  noField (changePreset 1 None None) /\
  updatePreset sampleClock (changePreset 1 None None) (signedIn alice) presetsWorld =
    (Returned (Some classic),
     {| db := db presetsWorld; ticks := ticks presetsWorld;
        trace := trace presetsWorld ++ [Select TimerPresetsT] |}).
Proof.
  assert (Hk : primaryKeys (db presetsWorld)) by concrete_keys.
  assert (Hin : In classic (rows (timerPresets (db presetsWorld))))
    by (left; reflexivity).
  assert (Hno : noField (changePreset 1 None None)) by (repeat split).
  split; [reflexivity|]. split; [exact Hk|]. split; [exact Hin|].
  split; [reflexivity|]. split; [reflexivity|]. split; [exact Hno|].
  apply (updatePreset_no_field_unchanged sampleClock {| user_id := alice |}
           (changePreset 1 None None) (signedIn alice) presetsWorld classic
           eq_refl Hk Hin eq_refl eq_refl Hno).
Defined.

(** Alice renames her first preset and makes it the default. *)
Lemma updatePreset_changes_supplied_fields_witness :
  identity (signedIn alice) = Some {| user_id := alice |} /\
  primaryKeys (db presetsWorld) /\
  In classic (rows (timerPresets (db presetsWorld))) /\
  TimerPresets.id classic = 1 /\
  TimerPresets.ownerId classic = alice /\
  exists (preset : TimerPresets.row) (w' : World),
    updatePreset sampleClock (changePreset 1 (Some "Classic 25/5"%string) (Some true))
      (signedIn alice) presetsWorld = (Returned (Some preset), w') /\
    TimerPresets.name preset = "Classic 25/5"%string /\
    TimerPresets.focusMinutes preset = 25 /\
    TimerPresets.isDefault preset = true /\
    TimerPresets.updatedAt preset = sampleClock (S (ticks presetsWorld)).
Proof.
  assert (Hk : primaryKeys (db presetsWorld)) by concrete_keys.
  assert (Hin : In classic (rows (timerPresets (db presetsWorld))))
    by (left; reflexivity).
  split; [reflexivity|]. split; [exact Hk|]. split; [exact Hin|].
  split; [reflexivity|]. split; [reflexivity|].
  destruct (updatePreset_changes_supplied_fields sampleClock
              {| user_id := alice |}
              (changePreset 1 (Some "Classic 25/5"%string) (Some true))
              (signedIn alice) presetsWorld classic eq_refl Hk Hin eq_refl eq_refl)
    as (preset & w' & Hrun & _ & _ & _ & _ & Hname & Hfocus & _ & _ & _ & _
        & Hdef & _ & Hdate).
  exists preset, w'. split; [exact Hrun|]. split; [exact Hname|].
  split; [exact Hfocus|]. split; [exact Hdef|].
  apply Hdate. intros (Hn & _). discriminate Hn.
Defined.

(** Alice creates a new default preset; her first preset, which was not
    the default, is rewritten all the same. *)
Lemma createPreset_default_clears_every_preset_witness :
  identity (signedIn alice) = Some {| user_id := alice |} /\
  CreatePreset.isDefault (newPreset "Pomodoro" (Some true)) = Some true /\
  In classic (rows (timerPresets (db presetsWorld))) /\
  TimerPresets.ownerId classic = alice /\
  TimerPresets.isDefault classic = false /\
  TimerPresets.updatedAt classic <> sampleClock (ticks presetsWorld) /\
  exists (w' : World),
    snd (createPreset sampleClock (newPreset "Pomodoro" (Some true))
           (signedIn alice) presetsWorld) = w' /\
    In {| TimerPresets.id := 1;
          TimerPresets.ownerId := alice;
          TimerPresets.name := "Classic";
          TimerPresets.focusMinutes := 25;
          TimerPresets.shortBreakMinutes := 5;
          TimerPresets.longBreakMinutes := None;
          TimerPresets.cyclesBeforeLongBreak := None;
          TimerPresets.cyclesPerBlock := None;
          TimerPresets.isDefault := false;
          TimerPresets.createdAt := TimerPresets.createdAt classic;
          TimerPresets.updatedAt := sampleClock (ticks presetsWorld) |}
       (rows (timerPresets (db w'))).
Proof.
  assert (Hin : In classic (rows (timerPresets (db presetsWorld))))
    by (left; reflexivity).
  split; [reflexivity|]. split; [reflexivity|]. split; [exact Hin|].
  split; [reflexivity|]. split; [reflexivity|]. split; [discriminate|].
  destruct (createPreset_default_clears_every_preset sampleClock
              {| user_id := alice |} (newPreset "Pomodoro" (Some true))
              (signedIn alice) presetsWorld classic eq_refl eq_refl Hin eq_refl)
    as (preset & w' & Hrun & _ & Hcleared & _).
  exists w'. split; [now rewrite Hrun|exact Hcleared].
Defined.

(** * Further properties of the handlers *)

Section MoreTableFacts.

Context {R : Type}.

Lemma singleton_of_le_1 (l : list R) (x : R) :
  (List.length l <= 1)%nat -> In x l -> l = [x].
Proof.
  destruct l as [|a [|b l]]; simpl; intros Hlen Hin.
  - destruct Hin.
  - destruct Hin as [->|[]]. reflexivity.
  - lia.
Qed.

Lemma nth_error_update (g : R -> R) (tail l : list R) (n : nat) (r : R) :
  nth_error l n = Some r ->
  nth_error (map g l ++ tail) n = Some (g r).
Proof.
  intros H. rewrite nth_error_app1.
  - now rewrite nth_error_map, H.
  - rewrite length_map. apply nth_error_Some. congruence.
Qed.

End MoreTableFacts.

Section CreatePresetRuns.

Variable clock : nat -> Date.

(** [createPreset] without [isDefault: true]: the two dates, the insert. *)
Lemma createPreset_plain (u : User) (input : CreatePreset.input)
    (ctx : ActionAPIContext) (w : World) :
  identity ctx = Some u ->
  truthy_bool (CreatePreset.isDefault input) = false ->
  createPreset clock input ctx w =
    (Returned (presetValues input u (clock (ticks w)) (clock (S (ticks w)))
                 (nextId (timerPresets (db w)))),
     {| db := setTimerPresets
                (inserted
                        (presetValues input u (clock (ticks w)) (clock (S (ticks w))))
                        (timerPresets (db w)))
                (db w);
        ticks := S (S (ticks w));
        trace := trace w ++ [Insert TimerPresetsT] |}).
Proof.
  intros Hu Ht. run_handler. rewrite Hu, Ht. reflexivity.
Qed.

(** [createPreset] with [isDefault: true]: three dates, the update of the
    caller's presets, then the insert. *)
Lemma createPreset_default (u : User) (input : CreatePreset.input)
    (ctx : ActionAPIContext) (w : World) :
  identity ctx = Some u ->
  truthy_bool (CreatePreset.isDefault input) = true ->
  createPreset clock input ctx w =
    (Returned (presetValues input u (clock (S (ticks w))) (clock (S (S (ticks w))))
                 (nextId (timerPresets (db w)))),
     {| db := setTimerPresets
                (inserted
                        (presetValues input u (clock (S (ticks w)))
                           (clock (S (S (ticks w)))))
                        (fst (update_where
                                (TimerPresets.overwrite (clearDefault (clock (ticks w))))
                                (ownedBy u) (timerPresets (db w)))))
                (db w);
        ticks := S (S (S (ticks w)));
        trace := trace w ++ [Update TimerPresetsT; Insert TimerPresetsT] |}).
Proof.
  intros Hu Ht. run_handler. rewrite Hu, Ht. simpl.
  now rewrite <- app_assoc.
Qed.

(** No row of a keyed table has the next id. *)
Lemma next_id_unused (g : TimerPresets.row -> TimerPresets.row)
    (t : Table TimerPresets.row) :
  keyed TimerPresets.id t ->
  (forall r, TimerPresets.id (g r) = TimerPresets.id r) ->
  filter (fun p => TimerPresets.id p =? nextId t) (map g (rows t)) = [].
Proof.
  intros [_ Hlt] Hg. apply filter_nothing. intros r Hr.
  apply in_map_iff in Hr. destruct Hr as [x [<- Hx]].
  rewrite Forall_forall in Hlt. specialize (Hlt x Hx). simpl in Hlt.
  rewrite Hg. apply Z.eqb_neq. lia.
Qed.

(** In the model a signed-in caller's [createPreset] returns, with the
    row it has stored. *)
Lemma createPreset_stores_preset (u : User)
    (input : CreatePreset.input) (ctx : ActionAPIContext) (w : World) :
  identity ctx = Some u ->
  primaryKeys (db w) ->
  exists (preset : TimerPresets.row) (w' : World),
    createPreset clock input ctx w = (Returned preset, w') /\
    presetAt (TimerPresets.id preset) (db w) = None /\
    presetAt (TimerPresets.id preset) (db w') = Some preset /\
    TimerPresets.ownerId preset = user_id u /\
    TimerPresets.name preset = CreatePreset.name input /\
    TimerPresets.focusMinutes preset =
      match CreatePreset.focusMinutes input with Some m => m | None => 25 end /\
    TimerPresets.shortBreakMinutes preset =
      match CreatePreset.shortBreakMinutes input with Some m => m | None => 5 end /\
    TimerPresets.longBreakMinutes preset = CreatePreset.longBreakMinutes input /\
    TimerPresets.cyclesBeforeLongBreak preset =
      CreatePreset.cyclesBeforeLongBreak input /\
    TimerPresets.cyclesPerBlock preset = CreatePreset.cyclesPerBlock input /\
    TimerPresets.isDefault preset =
      match CreatePreset.isDefault input with Some b => b | None => false end.
Proof.
  intros Hu [Hk _].
  assert (Hfresh : presetAt (nextId (timerPresets (db w))) (db w) = None).
  { unfold presetAt, select_where.
    rewrite <- (map_id (rows (timerPresets (db w)))).
    rewrite (next_id_unused (fun r => r)); auto. }
  destruct (truthy_bool (CreatePreset.isDefault input)) eqn:Ht.
  - eexists. eexists. split; [apply (createPreset_default u); assumption|].
    split; [exact Hfresh|]. split; [|repeat split].
    unfold presetAt, select_where. simpl. rewrite filter_app. simpl.
    rewrite Z.eqb_refl.
    rewrite (next_id_unused
               (fun r => if ownedBy u r
                         then TimerPresets.overwrite (clearDefault (clock (ticks w))) r
                         else r)); auto.
    intros r. now destruct (ownedBy u r).
  - eexists. eexists. split; [apply (createPreset_plain u); assumption|].
    split; [exact Hfresh|]. split; [|repeat split].
    unfold presetAt, select_where. simpl. rewrite filter_app. simpl.
    rewrite Z.eqb_refl.
    rewrite <- (map_id (rows (timerPresets (db w)))).
    rewrite (next_id_unused (fun r => r)); auto.
Qed.

(** X1. The preset that [createPreset] returns to a signed-in caller
    belongs to the caller, carries the input's name and optional columns,
    [focusMinutes] 25 and [shortBreakMinutes] 5 unless supplied,
    [isDefault] false unless supplied; its id was in use by no preset
    before, and looking the id up afterwards gives back that very row. *)
Theorem createPreset_returns_stored_preset (u : User)
    (input : CreatePreset.input) (ctx : ActionAPIContext) (w w' : World)
    (preset : TimerPresets.row) :
  identity ctx = Some u ->
  primaryKeys (db w) ->
  createPreset clock input ctx w = (Returned preset, w') ->
  presetAt (TimerPresets.id preset) (db w) = None /\
  presetAt (TimerPresets.id preset) (db w') = Some preset /\
  TimerPresets.ownerId preset = user_id u /\
  TimerPresets.name preset = CreatePreset.name input /\
  TimerPresets.focusMinutes preset =
    match CreatePreset.focusMinutes input with Some m => m | None => 25 end /\
  TimerPresets.shortBreakMinutes preset =
    match CreatePreset.shortBreakMinutes input with Some m => m | None => 5 end /\
  TimerPresets.longBreakMinutes preset = CreatePreset.longBreakMinutes input /\
  TimerPresets.cyclesBeforeLongBreak preset =
    CreatePreset.cyclesBeforeLongBreak input /\
  TimerPresets.cyclesPerBlock preset = CreatePreset.cyclesPerBlock input /\
  TimerPresets.isDefault preset =
    match CreatePreset.isDefault input with Some b => b | None => false end.
Proof.
  intros Hu Hk Hrun.
  destruct (createPreset_stores_preset u input ctx w Hu Hk)
    as (p0 & w0 & Hrun0 & Hrest).
  rewrite Hrun in Hrun0. injection Hrun0 as <- <-. exact Hrest.
Qed.

(** X2. When [isDefault] is absent or false, [createPreset] issues one
    statement, the insert: the presets already stored, the caller's
    included, stay as they are and the new row comes after them; the
    sessions and the intervals are not touched. *)
Theorem createPreset_plain_keeps_rows (u : User) (input : CreatePreset.input)
    (ctx : ActionAPIContext) (w : World) :
  identity ctx = Some u ->
  CreatePreset.isDefault input <> Some true ->
  exists (preset : TimerPresets.row) (w' : World),
    createPreset clock input ctx w = (Returned preset, w') /\
    rows (timerPresets (db w')) = (rows (timerPresets (db w)) ++ [preset])%list /\
    focusSessions (db w') = focusSessions (db w) /\
    focusIntervals (db w') = focusIntervals (db w) /\
    trace w' = (trace w ++ [Insert TimerPresetsT])%list.
Proof.
  intros Hu Hd.
  assert (Ht : truthy_bool (CreatePreset.isDefault input) = false).
  { destruct (CreatePreset.isDefault input) as [[|]|]; auto. now elim Hd. }
  eexists. eexists. split; [apply (createPreset_plain u); assumption|].
  repeat split.
Qed.

(** X3. After [createPreset] with [isDefault: true] the new preset is the
    caller's one and only default, whatever defaults the caller had. *)
Theorem createPreset_default_is_only_default (u : User)
    (input : CreatePreset.input) (ctx : ActionAPIContext) (w : World) :
  identity ctx = Some u ->
  CreatePreset.isDefault input = Some true ->
  exists (preset : TimerPresets.row) (w' : World),
    createPreset clock input ctx w = (Returned preset, w') /\
    defaultsOf (user_id u) (db w') = [preset].
Proof.
  intros Hu Hd.
  assert (Ht : truthy_bool (CreatePreset.isDefault input) = true)
    by now rewrite Hd.
  eexists. eexists. split; [apply (createPreset_default u); assumption|].
  unfold defaultsOf, select_where. simpl. rewrite filter_app.
  rewrite (cleared_defaults (user_id u) _ (ownedBy u)).
  - simpl. unfold isDefaultOf. simpl. rewrite String.eqb_refl, Hd. reflexivity.
  - intros r Hr. unfold isDefaultOf in Hr. apply andb_prop in Hr.
    unfold ownedBy. tauto.
Qed.

End CreatePresetRuns.

Section UpdatePresetRuns.

Variable clock : nat -> Date.

(** X4. When the caller owns no preset under the id (there is none, or it
    is somebody else's), [updatePreset] throws [NOT_FOUND] right after the
    lookup: nothing is written, and with [isDefault: true] in the input the
    caller's current default is not cleared either. *)
Theorem updatePreset_not_found (u : User) (input : UpdatePreset.input)
    (ctx : ActionAPIContext) (w : World) :
  identity ctx = Some u ->
  (forall p, In p (rows (timerPresets (db w))) ->
             TimerPresets.id p = UpdatePreset.id input ->
             TimerPresets.ownerId p <> user_id u) ->
  updatePreset clock input ctx w =
    (Thrown NOT_FOUND,
     {| db := db w; ticks := ticks w;
        trace := trace w ++ [Select TimerPresetsT] |}).
Proof.
  intros Hu Hnone.
  assert (Hfound : select_where (presetIs (UpdatePreset.id input) u)
                     (timerPresets (db w)) = []).
  { unfold select_where. apply filter_nothing. intros p Hp.
    unfold presetIs, ownedBy.
    destruct (TimerPresets.id p =? UpdatePreset.id input) eqn:Hid; [|reflexivity].
    apply Z.eqb_eq in Hid. simpl. apply String.eqb_neq. now apply Hnone. }
  run_handler. rewrite Hu. simpl. rewrite Hfound. reflexivity.
Qed.

(** What [updatePreset] does to a preset the caller owns when the input
    has a field: the caller's defaults are cleared if [isDefault: true] is
    supplied, then the row under the id is overwritten. *)
Lemma updatePreset_owned (u : User) (input : UpdatePreset.input)
    (ctx : ActionAPIContext) (w : World) (existing : TimerPresets.row) :
  identity ctx = Some u ->
  primaryKeys (db w) ->
  In existing (rows (timerPresets (db w))) ->
  TimerPresets.id existing = UpdatePreset.id input ->
  TimerPresets.ownerId existing = user_id u ->
  ~ noField input ->
  let sets := truthy_bool (UpdatePreset.isDefault input) in
  let clear := fun r : TimerPresets.row =>
    if sets && (ownedBy u r && Bool.eqb (TimerPresets.isDefault r) true)
    then TimerPresets.overwrite (clearDefault (clock (ticks w))) r
    else r in
  let k := if sets then S (ticks w) else ticks w in
  let change := fun r : TimerPresets.row =>
    if presetIs (UpdatePreset.id input) u r
    then TimerPresets.overwrite (updateData input (Some (clock k))) r
    else r in
  updatePreset clock input ctx w =
    (Returned (Some (change (clear existing))),
     {| db := setTimerPresets
                {| rows := map change (map clear (rows (timerPresets (db w))));
                   nextId := nextId (timerPresets (db w)) |}
                (db w);
        ticks := S k;
        trace := trace w ++ Select TimerPresetsT
                   :: (if sets then [Update TimerPresetsT] else [])
                   ++ [Update TimerPresetsT] |}).
Proof.
  intros Hu Hk Hin Hid Hown Hsome sets clear k change.
  pose proof (owned_preset_found u _ _ _ Hk Hin Hid Hown) as Hfound.
  pose proof Hk as [[Hnd _] _].
  assert (Hlen : Nat.eqb (updateDataLength input) 0 = false).
  { apply Nat.eqb_neq. intros H. apply Hsome. now apply noField_length. }
  assert (Hcid : forall x, TimerPresets.id (clear x) = TimerPresets.id x).
  { intros x. unfold clear. now destruct (_ && _). }
  assert (Hcsel : presetIs (UpdatePreset.id input) u (clear existing) = true).
  { unfold clear. destruct (_ && _); unfold presetIs, ownedBy; simpl;
      now rewrite Hid, Hown, Z.eqb_refl, String.eqb_refl. }
  assert (Hclear : filter (presetIs (UpdatePreset.id input) u)
                     (map clear (rows (timerPresets (db w))))
                   = [clear existing]).
  { apply (filter_by_key_map TimerPresets.id); auto.
    intros x Hx. apply presetIs_id in Hx. congruence. }
  unfold change at 1. rewrite Hcsel.
  revert Hclear. unfold change, clear, k. clear change clear k Hcid Hcsel.
  run_handler. rewrite Hu. simpl. rewrite Hfound. simpl. rewrite Hlen.
  destruct sets eqn:Hs; unfold sets in Hs; rewrite Hs; simpl; intros Hclear.
  - rewrite Hclear. simpl. rewrite <- !app_assoc. reflexivity.
  - rewrite map_id in Hclear. rewrite Hclear. simpl.
    rewrite map_id, <- !app_assoc. reflexivity.
Qed.

(** X5. [updatePreset] with [isDefault: true] on a preset the caller owns
    leaves that preset as the caller's one and only default, whichever
    preset was the default before. *)
Theorem updatePreset_default_is_only_default (u : User)
    (input : UpdatePreset.input) (ctx : ActionAPIContext) (w : World)
    (existing : TimerPresets.row) :
  identity ctx = Some u ->
  primaryKeys (db w) ->
  In existing (rows (timerPresets (db w))) ->
  TimerPresets.id existing = UpdatePreset.id input ->
  TimerPresets.ownerId existing = user_id u ->
  UpdatePreset.isDefault input = Some true ->
  exists (preset : TimerPresets.row) (w' : World),
    updatePreset clock input ctx w = (Returned (Some preset), w') /\
    TimerPresets.id preset = UpdatePreset.id input /\
    defaultsOf (user_id u) (db w') = [preset].
Proof.
  intros Hu Hk Hin Hid Hown Hd.
  assert (Hsome : ~ noField input).
  { intros (_ & _ & _ & _ & _ & _ & Hno). congruence. }
  pose proof (updatePreset_owned u input ctx w existing Hu Hk Hin Hid Hown Hsome)
    as Hrun.
  cbv zeta in Hrun. rewrite Hd in Hrun. cbn [truthy_bool andb app] in Hrun.
  set (mine := fun r : TimerPresets.row =>
         ownedBy u r && Bool.eqb (TimerPresets.isDefault r) true).
  set (clear := fun r : TimerPresets.row =>
         if ownedBy u r && Bool.eqb (TimerPresets.isDefault r) true
         then TimerPresets.overwrite (clearDefault (clock (ticks w))) r
         else r) in *.
  change (if ownedBy u existing && Bool.eqb (TimerPresets.isDefault existing) true
          then TimerPresets.overwrite (clearDefault (clock (ticks w))) existing
          else existing) with (clear existing) in Hrun.
  assert (Hcsel : presetIs (UpdatePreset.id input) u (clear existing) = true).
  { unfold clear. destruct (_ && _); unfold presetIs, ownedBy; simpl;
      now rewrite Hid, Hown, Z.eqb_refl, String.eqb_refl. }
  rewrite Hcsel in Hrun.
  eexists. eexists. split; [exact Hrun|]. split.
  { simpl. unfold clear. now destruct (_ && _). }
  unfold defaultsOf, select_where. simpl.
  apply singleton_of_le_1.
  - etransitivity; [apply filter_update_le|].
    unfold clear. rewrite (cleared_defaults (user_id u) _ mine).
    + simpl. apply (filter_by_key_le TimerPresets.id) with (i := UpdatePreset.id input).
      * destruct Hk as [[Hnd _] _]. now rewrite (map_update_ids _ mine).
      * intros x. apply presetIs_id.
    + intros r Hr. unfold mine, ownedBy. unfold isDefaultOf in Hr.
      apply andb_prop in Hr. destruct Hr as [-> ->]. reflexivity.
  - apply filter_In. split.
    + apply in_map_iff. exists (clear existing). rewrite Hcsel.
      split; [reflexivity|]. now apply in_map.
    + assert (Hcown : TimerPresets.ownerId (clear existing) = user_id u).
      { unfold clear. now destruct (_ && _). }
      unfold isDefaultOf. simpl. now rewrite Hd, Hcown, String.eqb_refl.
Qed.

(** X6. [updatePreset] with [isDefault: false] on the caller's default
    preset leaves the caller without any default: no other preset is
    promoted in its place. *)
Theorem updatePreset_unset_leaves_no_default (u : User)
    (input : UpdatePreset.input) (ctx : ActionAPIContext) (w : World)
    (existing : TimerPresets.row) :
  identity ctx = Some u ->
  primaryKeys (db w) ->
  atMostOneDefault (user_id u) (db w) ->
  In existing (rows (timerPresets (db w))) ->
  TimerPresets.id existing = UpdatePreset.id input ->
  TimerPresets.ownerId existing = user_id u ->
  TimerPresets.isDefault existing = true ->
  UpdatePreset.isDefault input = Some false ->
  exists (preset : TimerPresets.row) (w' : World),
    updatePreset clock input ctx w = (Returned (Some preset), w') /\
    TimerPresets.isDefault preset = false /\
    defaultsOf (user_id u) (db w') = [].
Proof.
  intros Hu Hk Hone Hin Hid Hown Hdef Hd.
  assert (Hsome : ~ noField input).
  { intros (_ & _ & _ & _ & _ & _ & Hno). congruence. }
  pose proof (updatePreset_owned u input ctx w existing Hu Hk Hin Hid Hown Hsome)
    as Hrun.
  cbv zeta in Hrun. rewrite Hd in Hrun. cbn [truthy_bool andb app] in Hrun.
  rewrite map_id in Hrun.
  assert (Hsel : presetIs (UpdatePreset.id input) u existing = true).
  { unfold presetIs, ownedBy.
    now rewrite Hid, Hown, Z.eqb_refl, String.eqb_refl. }
  rewrite Hsel in Hrun.
  assert (Hdefaults : defaultsOf (user_id u) (db w) = [existing]).
  { apply singleton_of_le_1; [exact Hone|].
    apply filter_In. split; [exact Hin|].
    unfold isDefaultOf. now rewrite Hown, String.eqb_refl, Hdef. }
  eexists. eexists. split; [exact Hrun|]. split.
  { simpl. now rewrite Hd. }
  unfold defaultsOf, select_where. simpl.
  apply filter_nothing. intros r Hr. apply in_map_iff in Hr.
  destruct Hr as [x [<- Hx]].
  destruct (presetIs (UpdatePreset.id input) u x) eqn:Hsx.
  - unfold isDefaultOf. simpl. rewrite Hd. simpl. apply andb_false_r.
  - destruct (isDefaultOf (user_id u) x) eqn:Hdx; [|reflexivity].
    assert (Hxin : In x (defaultsOf (user_id u) (db w))).
    { apply filter_In. now split. }
    rewrite Hdefaults in Hxin. destruct Hxin as [<-|[]]. congruence.
Qed.

End UpdatePresetRuns.

Section PresetListing.

Variable clock : nat -> Date.

Lemma filter_map_commute {R : Type} (p : R -> bool) (g : R -> R) (l : list R) :
  (forall r, p (g r) = p r) ->
  filter p (map g l) = map g (filter p l).
Proof.
  intros H. induction l as [|a l IH]; simpl; [reflexivity|].
  rewrite H. destruct (p a); simpl; now rewrite IH.
Qed.

(** X7. [listPresets] returns the caller's presets and nothing else: a
    row is in the answer exactly when it is stored with the caller as
    [ownerId].  It writes nothing and reads no date. *)
Theorem listPresets_returns_own (u : User) (ctx : ActionAPIContext) (w : World) :
  identity ctx = Some u ->
  exists presets : list TimerPresets.row,
    listPresets ctx w =
      (Returned presets,
       {| db := db w; ticks := ticks w;
          trace := trace w ++ [Select TimerPresetsT] |}) /\
    (forall p, In p presets <->
               In p (rows (timerPresets (db w))) /\
               TimerPresets.ownerId p = user_id u).
Proof.
  intros Hu. eexists. split.
  - run_handler. rewrite Hu. reflexivity.
  - intros p. unfold select_where. rewrite filter_In. unfold ownedBy.
    now rewrite String.eqb_eq.
Qed.

(** X8. A preset just created is listed: [listPresets] by the same caller
    right after [createPreset] returns the presets it would have returned
    before, by id and in the same order, followed by the new preset. *)
Theorem createPreset_then_listPresets (u : User) (input : CreatePreset.input)
    (ctx : ActionAPIContext) (w : World) :
  identity ctx = Some u ->
  exists (preset : TimerPresets.row) (w1 : World) (others : list TimerPresets.row),
    createPreset clock input ctx w = (Returned preset, w1) /\
    fst (listPresets ctx w1) = Returned (others ++ [preset])%list /\
    map TimerPresets.id others =
      map TimerPresets.id (select_where (ownedBy u) (timerPresets (db w))).
Proof.
  intros Hu.
  destruct (truthy_bool (CreatePreset.isDefault input)) eqn:Ht.
  - eexists. eexists. eexists.
    split; [apply (createPreset_default clock u); assumption|].
    run_handler. rewrite Hu. simpl. unfold select_where. simpl.
    rewrite filter_app. simpl. unfold ownedBy at 3. simpl.
    rewrite String.eqb_refl. split; [reflexivity|].
    rewrite filter_map_commute.
    + rewrite map_map. apply map_ext. intros r. now destruct (ownedBy u r).
    + intros r. destruct (ownedBy u r) eqn:Hr; [|exact Hr]. exact Hr.
  - eexists. eexists. eexists.
    split; [apply (createPreset_plain clock u); assumption|].
    run_handler. rewrite Hu. simpl. unfold select_where. simpl.
    rewrite filter_app. simpl. unfold ownedBy at 2. simpl.
    rewrite String.eqb_refl. split; reflexivity.
Qed.

(** What any action does to the table of presets, seen from its caller:
    rows are rewritten in place, keeping [id], [ownerId] and [createdAt],
    and only the caller's; the one row that may be added is the caller's. *)
Lemma server_presets_shape (c : Call) (ctx : ActionAPIContext) (w : World)
    (u : User) :
  identity ctx = Some u ->
  exists (g : TimerPresets.row -> TimerPresets.row) (tail : list TimerPresets.row),
    rows (timerPresets (db (snd (server clock c ctx w)))) =
      (map g (rows (timerPresets (db w))) ++ tail)%list /\
    (forall r, ownedBy u r = false -> g r = r) /\
    (forall r, TimerPresets.id (g r) = TimerPresets.id r /\
               TimerPresets.ownerId (g r) = TimerPresets.ownerId r /\
               TimerPresets.createdAt (g r) = TimerPresets.createdAt r) /\
    (forall p, In p tail -> TimerPresets.ownerId p = user_id u).
Proof.
  intros Hu.
  assert (Hsame : forall l : list TimerPresets.row,
             exists g tail, l = (map g l ++ tail)%list /\
               (forall r, ownedBy u r = false -> g r = r) /\
               (forall r, TimerPresets.id (g r) = TimerPresets.id r /\
                          TimerPresets.ownerId (g r) = TimerPresets.ownerId r /\
                          TimerPresets.createdAt (g r) = TimerPresets.createdAt r) /\
               (forall p, In p tail -> TimerPresets.ownerId p = user_id u)).
  { intros l. exists (fun r => r), []. rewrite map_id, app_nil_r.
    repeat split; auto. intros p []. }
  pose proof (server_presets_frame clock c ctx w) as Hframe.
  destruct c; try (rewrite Hframe; apply Hsame).
  - (* createPreset *)
    run_handler. rewrite Hu. simpl.
    destruct (truthy_bool (CreatePreset.isDefault input)); simpl.
    + eexists. eexists. split; [reflexivity|]. split; [|split].
      * intros r Hr. now rewrite Hr.
      * intros r. now destruct (ownedBy u r).
      * intros p [<-|[]]. reflexivity.
    + exists (fun r => r). eexists. rewrite map_id. split; [reflexivity|].
      split; [|split]; auto. intros p [<-|[]]. reflexivity.
  - (* updatePreset *)
    run_handler. rewrite Hu. simpl.
    destruct (first _) as [existing|]; simpl; [|apply Hsame].
    destruct (truthy_bool (UpdatePreset.isDefault input)); simpl;
      destruct (Nat.eqb (updateDataLength input) 0); simpl; try apply Hsame.
    + eexists. exists []. rewrite app_nil_r. split; [reflexivity|].
      split; [|split].
      * intros r Hr. now rewrite Hr.
      * intros r. now destruct (ownedBy u r && _).
      * intros p [].
    + rewrite map_map. eexists. exists []. rewrite app_nil_r.
      split; [reflexivity|]. split; [|split].
      * intros r Hr. rewrite Hr. simpl. unfold presetIs. rewrite Hr.
        now rewrite andb_false_r.
      * intros r. destruct (ownedBy u r && _); now destruct (presetIs _ _ _).
      * intros p [].
    + eexists. exists []. rewrite app_nil_r. split; [reflexivity|].
      split; [|split].
      * intros r Hr. unfold presetIs. rewrite Hr. now rewrite andb_false_r.
      * intros r. now destruct (presetIs _ _ r).
      * intros p [].
Qed.

End PresetListing.

(** * What no action does *)

Section Frames.

Variable clock : nat -> Date.

Lemma server_unsigned_db (c : Call) (ctx : ActionAPIContext) (w : World) :
  identity ctx = None -> db (snd (server clock c ctx w)) = db w.
Proof.
  intros H. destruct c; run_handler; rewrite H; reflexivity.
Qed.

(** X9. No action touches the presets of anybody but its caller: a preset
    owned by someone else is the same row at the same place afterwards,
    also when the caller clears defaults or updates under that row's id. *)
Theorem presets_of_others_untouched (c : Call) (ctx : ActionAPIContext)
    (w : World) (u : User) (n : nat) (r : TimerPresets.row) :
  identity ctx = Some u ->
  nth_error (rows (timerPresets (db w))) n = Some r ->
  TimerPresets.ownerId r <> user_id u ->
  nth_error (rows (timerPresets (db (snd (server clock c ctx w))))) n = Some r.
Proof.
  intros Hu Hn Hother.
  destruct (server_presets_shape clock c ctx w u Hu)
    as (g & tail & -> & Hg & _ & _).
  rewrite (nth_error_update g tail _ n r Hn). f_equal. apply Hg.
  unfold ownedBy. now apply String.eqb_neq.
Qed.

(** X10. No action deletes a preset or rewrites its [id], [ownerId] or
    [createdAt]: the row at each position is followed by a row with the
    same three columns at that position. *)
Theorem preset_key_columns_fixed (c : Call) (ctx : ActionAPIContext)
    (w : World) (n : nat) (r : TimerPresets.row) :
  nth_error (rows (timerPresets (db w))) n = Some r ->
  exists r' : TimerPresets.row,
    nth_error (rows (timerPresets (db (snd (server clock c ctx w))))) n = Some r' /\
    TimerPresets.id r' = TimerPresets.id r /\
    TimerPresets.ownerId r' = TimerPresets.ownerId r /\
    TimerPresets.createdAt r' = TimerPresets.createdAt r.
Proof.
  intros Hn. destruct (identity ctx) as [u|] eqn:Hu.
  - destruct (server_presets_shape clock c ctx w u Hu)
      as (g & tail & -> & _ & Hg & _).
    exists (g r). split; [now apply nth_error_update|apply Hg].
  - rewrite (server_unsigned_db c ctx w Hu). exists r. auto.
Qed.

(** What an action does to the sessions, with the session that
    [completeSession] found: it is stored, under the id asked for, and it
    is the caller's. *)
Lemma server_sessions_owned (c : Call) (ctx : ActionAPIContext) (w : World) :
  let before := rows (focusSessions (db w)) in
  let after := rows (focusSessions (db (snd (server clock c ctx w)))) in
  after = before \/
  (exists input u now i,
      c = StartSessionCall input /\
      after = (before ++ [sessionValues input u now i])%list) \/
  (exists input u s now,
      c = CompleteSessionCall input /\
      identity ctx = Some u /\
      In s before /\
      sessionIs (CompleteSession.id input) u s = true /\
      after = map (fun r => if FocusSessions.id r =? CompleteSession.id input
                            then FocusSessions.overwrite (completion input s now) r
                            else r) before).
Proof.
  destruct c; run_handler; destruct (identity ctx) as [u|] eqn:Hu; simpl; auto.
  - destruct (truthy_bool _); simpl; auto.
  - destruct (first _); simpl; auto.
    destruct (truthy_bool _); simpl; destruct (Nat.eqb _ 0); simpl; auto.
  - destruct (truthy_number _); simpl;
      [destruct (first _); simpl; auto|];
      (destruct (presetExists _ _); simpl; auto);
      right; left; eexists; eexists; eexists; eexists; split; reflexivity.
  - destruct (first _) as [s|] eqn:Hs; simpl; auto.
    right. right. exists input, u, s. eexists.
    assert (Hin : In s (select_where (sessionIs (CompleteSession.id input) u)
                          (focusSessions (db w)))).
    { destruct (select_where _ _); [discriminate|].
      simpl in Hs. injection Hs as ->. now left. }
    apply filter_In in Hin. destruct Hin as [Hin Hsel].
    repeat split; auto.
  - destruct (first _); simpl; auto.
    destruct (AddInterval.startedAt input); simpl;
      destruct (sessionExists _ _); simpl; auto.
  - destruct (first _); simpl; auto.
Qed.

(** X11. Under the primary key no action touches a session of anybody but
    its caller, although the update of [completeSession] selects by id
    alone: a session of someone else is the same row at the same place
    afterwards. *)
Theorem sessions_of_others_untouched (c : Call) (ctx : ActionAPIContext)
    (w : World) (u : User) (n : nat) (r : FocusSessions.row) :
  identity ctx = Some u ->
  primaryKeys (db w) ->
  nth_error (rows (focusSessions (db w))) n = Some r ->
  FocusSessions.userId r <> user_id u ->
  nth_error (rows (focusSessions (db (snd (server clock c ctx w))))) n = Some r.
Proof.
  intros Hu [_ [[Hnd _] _]] Hn Hother.
  destruct (server_sessions_owned c ctx w)
    as [-> | [(input & v & now & i & _ & ->)
             | (input & v & s & now & _ & Hv & Hin & Hsel & ->)]].
  - exact Hn.
  - rewrite nth_error_app1; [exact Hn|]. apply nth_error_Some. congruence.
  - rewrite nth_error_map, Hn. simpl.
    destruct (FocusSessions.id r =? CompleteSession.id input) eqn:Hr; [|reflexivity].
    exfalso. apply Hother. apply Z.eqb_eq in Hr.
    assert (r = s) as ->.
    { apply (key_injective FocusSessions.id (rows (focusSessions (db w)))); auto.
      - now apply nth_error_In with (n := n).
      - apply sessionIs_id in Hsel. congruence. }
    rewrite Hu in Hv. injection Hv as <-.
    unfold sessionIs, sessionOf in Hsel. apply andb_prop in Hsel.
    destruct Hsel as [_ Hsel]. now apply String.eqb_eq in Hsel.
Qed.

(** X12. No action deletes a session or rewrites its [id], [userId],
    [presetId], [label], [plannedFocusMinutes], [plannedCycles] or
    [startedAt]; and an [endedAt] that is set is never cleared. *)
Theorem session_fixed_columns (c : Call) (ctx : ActionAPIContext)
    (w : World) (n : nat) (r : FocusSessions.row) :
  nth_error (rows (focusSessions (db w))) n = Some r ->
  exists r' : FocusSessions.row,
    nth_error (rows (focusSessions (db (snd (server clock c ctx w))))) n = Some r' /\
    FocusSessions.id r' = FocusSessions.id r /\
    FocusSessions.userId r' = FocusSessions.userId r /\
    FocusSessions.presetId r' = FocusSessions.presetId r /\
    FocusSessions.label r' = FocusSessions.label r /\
    FocusSessions.plannedFocusMinutes r' = FocusSessions.plannedFocusMinutes r /\
    FocusSessions.plannedCycles r' = FocusSessions.plannedCycles r /\
    FocusSessions.startedAt r' = FocusSessions.startedAt r /\
    (FocusSessions.endedAt r <> None -> FocusSessions.endedAt r' <> None).
Proof.
  intros Hn.
  destruct (server_sessions clock c ctx w)
    as [-> | [(input & v & now & i & _ & ->) | (input & s & now & _ & ->)]].
  - exists r. repeat split; auto.
  - exists r. split; [|repeat split; auto].
    rewrite nth_error_app1; [exact Hn|]. apply nth_error_Some. congruence.
  - eexists. split; [now rewrite nth_error_map, Hn|].
    destruct (FocusSessions.id r =? CompleteSession.id input); simpl;
      repeat split; auto; discriminate.
Qed.

(** X13. Intervals are only ever added: whatever the action, the stored
    intervals afterwards are the ones stored before, unchanged and in
    order, followed by at most one new row. *)
Theorem intervals_append_only (c : Call) (ctx : ActionAPIContext) (w : World) :
  exists tail : list FocusIntervals.row,
    rows (focusIntervals (db (snd (server clock c ctx w)))) =
      (rows (focusIntervals (db w)) ++ tail)%list /\
    (List.length tail <= 1)%nat.
Proof.
  assert (Hsame : forall l : list FocusIntervals.row,
             exists tail, l = (l ++ tail)%list /\ (List.length tail <= 1)%nat).
  { intros l. exists []. rewrite app_nil_r. simpl. split; [reflexivity|lia]. }
  destruct c; run_handler; destruct (identity ctx) as [u|]; simpl;
    try apply Hsame.
  - destruct (truthy_bool _); simpl; apply Hsame.
  - destruct (first _); simpl; [|apply Hsame].
    destruct (truthy_bool _); simpl; destruct (Nat.eqb _ 0); simpl; apply Hsame.
  - destruct (truthy_number _); simpl;
      [destruct (first _); simpl; [|apply Hsame]|];
      destruct (presetExists _ _); simpl; apply Hsame.
  - destruct (first _); simpl; apply Hsame.
  - destruct (first _); simpl; [|apply Hsame].
    destruct (AddInterval.startedAt input); simpl;
      (destruct (sessionExists _ _); simpl; [|apply Hsame]);
      eexists; (split; [reflexivity|simpl; lia]).
  - destruct (first _); simpl; apply Hsame.
Qed.

(** X14. An action that throws has written nothing: whenever the outcome
    is an [ActionError], [UNAUTHORIZED] or [NOT_FOUND], the database after
    the call is the database before it. *)
Theorem thrown_error_writes_nothing (c : Call) (ctx : ActionAPIContext)
    (w w' : World) (code : ActionErrorCode) :
  server clock c ctx w = (Thrown code, w') ->
  db w' = db w.
Proof.
  destruct c; run_handler; destruct (identity ctx) as [u|]; simpl;
    try (intros H; injection H as _ <-; reflexivity);
    try discriminate.
  - destruct (truthy_bool _); simpl; discriminate.
  - destruct (first _); simpl;
      [|intros H; injection H as _ <-; reflexivity].
    destruct (truthy_bool _); simpl; destruct (Nat.eqb _ 0); simpl; discriminate.
  - destruct (truthy_number _); simpl;
      [destruct (first _); simpl;
         [|intros H; injection H as _ <-; reflexivity]|];
      destruct (presetExists _ _); simpl; discriminate.
  - destruct (first _); simpl; [discriminate|].
    intros H; injection H as _ <-; reflexivity.
  - destruct (first _); simpl;
      [|intros H; injection H as _ <-; reflexivity].
    destruct (AddInterval.startedAt input); simpl;
      destruct (sessionExists _ _); simpl; discriminate.
  - destruct (first _); simpl; [discriminate|].
    intros H; injection H as _ <-; reflexivity.
Qed.

End Frames.

(** * Sessions from start to completion *)

Section SessionRuns.

Variable clock : nat -> Date.

Lemma startSession_unchecked (u : User) (input : StartSession.input)
    (ctx : ActionAPIContext) (w : World) :
  identity ctx = Some u ->
  StartSession.presetId input = None ->
  startSession clock input ctx w =
    (Returned (sessionValues input u (clock (ticks w)) (nextId (focusSessions (db w)))),
     {| db := setFocusSessions
                (inserted (sessionValues input u (clock (ticks w)))
                        (focusSessions (db w)))
                (db w);
        ticks := S (ticks w);
        trace := trace w ++ [Insert FocusSessionsT] |}).
Proof.
  intros Hu Hnone. run_handler. rewrite Hu, Hnone. simpl.
  unfold presetExists. simpl. rewrite Hnone. reflexivity.
Qed.

Lemma startSession_checked (u : User) (input : StartSession.input)
    (ctx : ActionAPIContext) (w : World) (i : Z) (p : TimerPresets.row) :
  identity ctx = Some u ->
  StartSession.presetId input = Some i ->
  i <> 0 ->
  In p (rows (timerPresets (db w))) ->
  TimerPresets.id p = i ->
  TimerPresets.ownerId p = user_id u ->
  startSession clock input ctx w =
    (Returned (sessionValues input u (clock (ticks w)) (nextId (focusSessions (db w)))),
     {| db := setFocusSessions
                (inserted (sessionValues input u (clock (ticks w)))
                        (focusSessions (db w)))
                (db w);
        ticks := S (ticks w);
        trace := trace w ++ [Select TimerPresetsT; Insert FocusSessionsT] |}).
Proof.
  intros Hu Hi Hnz Hin Hid Hown.
  assert (Hfound : first (select_where (presetIs i u) (timerPresets (db w))) <> None).
  { assert (H : In p (select_where (presetIs i u) (timerPresets (db w)))).
    { apply filter_In. split; [exact Hin|]. unfold presetIs, ownedBy.
      now rewrite Hid, Hown, Z.eqb_refl, String.eqb_refl. }
    destruct (select_where _ _); [destruct H|discriminate]. }
  assert (Hfk : forall now k,
             presetExists (db w) (sessionValues input u now k) = true).
  { intros now k. unfold presetExists. simpl. rewrite Hi.
    apply existsb_exists. exists p. split; [exact Hin|]. now apply Z.eqb_eq. }
  run_handler. rewrite Hu, Hi. simpl.
  apply Z.eqb_neq in Hnz. rewrite Hnz. simpl.
  destruct (first _); [|contradiction]. simpl. rewrite Hfk.
  now rewrite <- app_assoc.
Qed.

Lemma session_next_id_unused (t : Table FocusSessions.row) :
  keyed FocusSessions.id t ->
  filter (fun s => FocusSessions.id s =? nextId t) (rows t) = [].
Proof.
  intros [_ Hlt]. apply filter_nothing. intros r Hr.
  rewrite Forall_forall in Hlt. specialize (Hlt r Hr). simpl in Hlt.
  apply Z.eqb_neq. lia.
Qed.

(** In the model [startSession] without a [presetId] returns, with the
    row it has stored. *)
Lemma startSession_stores_session (u : User) (input : StartSession.input)
    (ctx : ActionAPIContext) (w : World) :
  identity ctx = Some u ->
  primaryKeys (db w) ->
  StartSession.presetId input = None ->
  exists (session : FocusSessions.row) (w' : World),
    startSession clock input ctx w = (Returned session, w') /\
    rows (focusSessions (db w')) = (rows (focusSessions (db w)) ++ [session])%list /\
    sessionAt (FocusSessions.id session) (db w) = None /\
    sessionAt (FocusSessions.id session) (db w') = Some session /\
    FocusSessions.userId session = user_id u /\
    FocusSessions.status session = in_progress /\
    FocusSessions.actualFocusMinutes session = 0 /\
    FocusSessions.actualBreakMinutes session = 0 /\
    FocusSessions.completedCycles session = 0 /\
    FocusSessions.endedAt session = None /\
    FocusSessions.startedAt session = clock (ticks w) /\
    FocusSessions.presetId session = None /\
    FocusSessions.label session = StartSession.label input /\
    FocusSessions.plannedFocusMinutes session = StartSession.plannedFocusMinutes input /\
    FocusSessions.plannedCycles session = StartSession.plannedCycles input /\
    FocusSessions.meta session =
      match StartSession.meta input with Some j => j | None => JNull end /\
    trace w' = (trace w ++ [Insert FocusSessionsT])%list.
Proof.
  intros Hu [_ [Hk _]] Hnone.
  pose proof (session_next_id_unused _ Hk) as Hfree.
  eexists. eexists. split; [apply (startSession_unchecked u); assumption|].
  simpl. split; [reflexivity|]. split; [|split].
  - unfold sessionAt, select_where. now rewrite Hfree.
  - unfold sessionAt, select_where. simpl. rewrite filter_app, Hfree. simpl.
    now rewrite Z.eqb_refl.
  - rewrite Hnone. repeat split.
Qed.

(** X15. The session that [startSession] without a [presetId] returns to
    a signed-in caller is the caller's, [in_progress], with the three
    counters at 0, no [endedAt], [startedAt] the date read, and [null] for
    an absent [meta]; it is stored after the existing sessions under an id
    that was free, where a lookup finds it; the single statement issued is
    the insert. *)
Theorem startSession_without_preset (u : User) (input : StartSession.input)
    (ctx : ActionAPIContext) (w w' : World) (session : FocusSessions.row) :
  identity ctx = Some u ->
  primaryKeys (db w) ->
  StartSession.presetId input = None ->
  startSession clock input ctx w = (Returned session, w') ->
  rows (focusSessions (db w')) = (rows (focusSessions (db w)) ++ [session])%list /\
  sessionAt (FocusSessions.id session) (db w) = None /\
  sessionAt (FocusSessions.id session) (db w') = Some session /\
  FocusSessions.userId session = user_id u /\
  FocusSessions.status session = in_progress /\
  FocusSessions.actualFocusMinutes session = 0 /\
  FocusSessions.actualBreakMinutes session = 0 /\
  FocusSessions.completedCycles session = 0 /\
  FocusSessions.endedAt session = None /\
  FocusSessions.startedAt session = clock (ticks w) /\
  FocusSessions.presetId session = None /\
  FocusSessions.label session = StartSession.label input /\
  FocusSessions.plannedFocusMinutes session = StartSession.plannedFocusMinutes input /\
  FocusSessions.plannedCycles session = StartSession.plannedCycles input /\
  FocusSessions.meta session =
    match StartSession.meta input with Some j => j | None => JNull end /\
  trace w' = (trace w ++ [Insert FocusSessionsT])%list.
Proof.
  intros Hu Hk Hnone Hrun.
  destruct (startSession_stores_session u input ctx w Hu Hk Hnone)
    as (s0 & w0 & Hrun0 & Hrest).
  rewrite Hrun in Hrun0. injection Hrun0 as <- <-. exact Hrest.
Qed.

(** X16. [startSession] with the id, other than 0, of a preset the caller
    owns looks the preset up and then inserts: the session returned refers
    to that preset, is [in_progress] and is stored after the existing
    sessions; the presets are not written. *)
Theorem startSession_with_owned_preset (u : User) (input : StartSession.input)
    (ctx : ActionAPIContext) (w : World) (i : Z) (p : TimerPresets.row) :
  identity ctx = Some u ->
  StartSession.presetId input = Some i ->
  i <> 0 ->
  In p (rows (timerPresets (db w))) ->
  TimerPresets.id p = i ->
  TimerPresets.ownerId p = user_id u ->
  exists (session : FocusSessions.row) (w' : World),
    startSession clock input ctx w = (Returned session, w') /\
    FocusSessions.presetId session = Some i /\
    FocusSessions.userId session = user_id u /\
    FocusSessions.status session = in_progress /\
    rows (focusSessions (db w')) = (rows (focusSessions (db w)) ++ [session])%list /\
    timerPresets (db w') = timerPresets (db w) /\
    trace w' = (trace w ++ [Select TimerPresetsT; Insert FocusSessionsT])%list.
Proof.
  intros Hu Hi Hnz Hin Hid Hown.
  eexists. eexists.
  split; [apply (startSession_checked u input ctx w i p); assumption|].
  simpl. rewrite Hi. repeat split.
Qed.

(** X17. [startSession] with the id, other than 0, of a preset the caller
    does not own, be it missing or somebody else's, throws [NOT_FOUND]
    after the lookup and stores no session. *)
Theorem startSession_foreign_preset_not_found (u : User)
    (input : StartSession.input) (ctx : ActionAPIContext) (w : World) (i : Z) :
  identity ctx = Some u ->
  StartSession.presetId input = Some i ->
  i <> 0 ->
  (forall p, In p (rows (timerPresets (db w))) ->
             TimerPresets.id p = i -> TimerPresets.ownerId p <> user_id u) ->
  exists w' : World,
    startSession clock input ctx w = (Thrown NOT_FOUND, w') /\
    db w' = db w /\
    trace w' = (trace w ++ [Select TimerPresetsT])%list.
Proof.
  intros Hu Hi Hnz Hnone. eexists. split.
  - now apply startSession_unknown_preset with (u := u) (i := i).
  - split; reflexivity.
Qed.

(** X18. On a session the caller owns, [completeSession] stores what the
    input supplies: each supplied counter, the supplied status, be it
    [in_progress], and a supplied [meta] other than [null]; a [meta]
    supplied as [null] does not clear the stored one. *)
Theorem completeSession_stores_supplied (u : User)
    (input : CompleteSession.input) (ctx : ActionAPIContext) (w : World)
    (s : FocusSessions.row) :
  identity ctx = Some u ->
  primaryKeys (db w) ->
  In s (rows (focusSessions (db w))) ->
  FocusSessions.id s = CompleteSession.id input ->
  FocusSessions.userId s = user_id u ->
  exists (updated : FocusSessions.row) (w' : World),
    completeSession clock input ctx w = (Returned (Some updated), w') /\
    In updated (rows (focusSessions (db w'))) /\
    (forall m, CompleteSession.actualFocusMinutes input = Some m ->
               FocusSessions.actualFocusMinutes updated = m) /\
    (forall m, CompleteSession.actualBreakMinutes input = Some m ->
               FocusSessions.actualBreakMinutes updated = m) /\
    (forall k, CompleteSession.completedCycles input = Some k ->
               FocusSessions.completedCycles updated = k) /\
    (forall st, CompleteSession.status input = Some st ->
                FocusSessions.status updated = st) /\
    (forall doc, CompleteSession.meta input = Some (JValue doc) ->
                 FocusSessions.meta updated = JValue doc) /\
    (CompleteSession.meta input = Some JNull ->
     FocusSessions.meta updated = FocusSessions.meta s).
Proof.
  intros Hu Hk Hin Hid Hown.
  eexists. eexists. split.
  - exact (completeSession_owned clock u input ctx w s Hu Hk Hin Hid Hown).
  - simpl. split.
    + apply in_map_iff. exists s. now rewrite Z.eqb_refl.
    + repeat split; intros; simpl;
        match goal with H : _ = Some _ |- _ => rewrite H end; reflexivity.
Qed.

End SessionRuns.

Section SessionComposition.

Variable clock : nat -> Date.

Lemma update_outside {R : Type} (q : R -> bool) (f : R -> R) (l : list R) :
  (forall r, In r l -> q r = false) ->
  map (fun r => if q r then f r else r) l = l.
Proof.
  intros H. rewrite <- (map_id l) at 2.
  apply map_ext_in. intros r Hr. now rewrite (H r Hr).
Qed.

(** X19. A session started without a preset can be completed by the same
    caller under the id [startSession] returned.  The completed row keeps
    [startedAt] and the planned columns of the start, takes the supplied
    counters, or 0 where none is supplied, has the supplied status, or
    [completed], and an [endedAt]; it replaces the started row at the end
    of the table, the other sessions being as before the two calls. *)
Theorem startSession_then_completeSession (u : User)
    (start : StartSession.input) (ctx : ActionAPIContext) (w : World) :
  identity ctx = Some u ->
  primaryKeys (db w) ->
  StartSession.presetId start = None ->
  exists (session : FocusSessions.row) (w1 : World),
    startSession clock start ctx w = (Returned session, w1) /\
    forall finishing : CompleteSession.input,
      CompleteSession.id finishing = FocusSessions.id session ->
      exists (updated : FocusSessions.row) (w2 : World),
        completeSession clock finishing ctx w1 = (Returned (Some updated), w2) /\
        rows (focusSessions (db w2)) =
          (rows (focusSessions (db w)) ++ [updated])%list /\
        FocusSessions.id updated = FocusSessions.id session /\
        FocusSessions.startedAt updated = clock (ticks w) /\
        FocusSessions.endedAt updated = Some (clock (S (ticks w))) /\
        FocusSessions.plannedFocusMinutes updated =
          StartSession.plannedFocusMinutes start /\
        FocusSessions.plannedCycles updated = StartSession.plannedCycles start /\
        FocusSessions.actualFocusMinutes updated =
          match CompleteSession.actualFocusMinutes finishing with
          | Some m => m | None => 0 end /\
        FocusSessions.actualBreakMinutes updated =
          match CompleteSession.actualBreakMinutes finishing with
          | Some m => m | None => 0 end /\
        FocusSessions.completedCycles updated =
          match CompleteSession.completedCycles finishing with
          | Some k => k | None => 0 end /\
        FocusSessions.status updated =
          match CompleteSession.status finishing with
          | Some st => st | None => completed end.
Proof.
  intros Hu Hk Hnone.
  pose proof (startSession_unchecked clock u start ctx w Hu Hnone) as Hstart.
  set (session := sessionValues start u (clock (ticks w))
                    (nextId (focusSessions (db w)))) in *.
  eexists. eexists. split; [exact Hstart|].
  intros finishing Hid.
  match type of Hstart with _ = (_, ?x) => set (w1 := x) in * end.
  assert (Hk1 : primaryKeys (db w1)).
  { destruct Hk as [Hp [Hs Hi]]. split; [exact Hp|]. split; [|exact Hi].
    apply (keyed_insert FocusSessions.id
             (sessionValues start u (clock (ticks w)))); [reflexivity|exact Hs]. }
  assert (Hin1 : In session (rows (focusSessions (db w1)))).
  { simpl. apply in_or_app. right. now left. }
  pose proof (completeSession_owned clock u finishing ctx w1 session Hu Hk1 Hin1
                (eq_sym Hid) eq_refl) as Hdone.
  eexists. eexists. split; [exact Hdone|].
  simpl. split; [|repeat split].
  rewrite map_app. simpl. rewrite Z.eqb_refl. f_equal.
  apply (update_outside (fun r => FocusSessions.id r =? nextId (focusSessions (db w)))).
  intros r Hr. destruct Hk as [_ [[_ Hlt] _]].
  rewrite Forall_forall in Hlt. specialize (Hlt r Hr). simpl in Hlt.
  apply Z.eqb_neq. lia.
Qed.

End SessionComposition.

(** * Intervals *)

Section IntervalRuns.

Variable clock : nat -> Date.

Lemma owned_session_resolved (u : User) (i : Z) (w : World) (s : FocusSessions.row) :
  In s (rows (focusSessions (db w))) ->
  FocusSessions.id s = i ->
  FocusSessions.userId s = user_id u ->
  first (select_where (sessionIs i u) (focusSessions (db w))) <> None.
Proof.
  intros Hin Hid Hown.
  assert (H : In s (select_where (sessionIs i u) (focusSessions (db w)))).
  { apply filter_In. split; [exact Hin|]. unfold sessionIs, sessionOf.
    now rewrite Hid, Hown, Z.eqb_refl, String.eqb_refl. }
  destruct (select_where _ _); [destruct H|discriminate].
Qed.

Lemma addInterval_owned (u : User) (input : AddInterval.input)
    (ctx : ActionAPIContext) (w : World) (s : FocusSessions.row) :
  identity ctx = Some u ->
  In s (rows (focusSessions (db w))) ->
  FocusSessions.id s = AddInterval.sessionId input ->
  FocusSessions.userId s = user_id u ->
  addInterval clock input ctx w =
    (Returned (intervalValues input
                 (nullish (AddInterval.startedAt input) (clock (ticks w)))
                 (nextId (focusIntervals (db w)))),
     {| db := setFocusIntervals
                (inserted
                        (intervalValues input
                           (nullish (AddInterval.startedAt input) (clock (ticks w))))
                        (focusIntervals (db w)))
                (db w);
        ticks := match AddInterval.startedAt input with
                 | Some _ => ticks w
                 | None => S (ticks w)
                 end;
        trace := trace w ++ [Select FocusSessionsT; Insert FocusIntervalsT] |}).
Proof.
  intros Hu Hin Hid Hown.
  pose proof (owned_session_resolved u _ w s Hin Hid Hown) as Hfound.
  assert (Hfk : forall started k,
             sessionExists (db w) (intervalValues input started k) = true).
  { intros started k. unfold sessionExists. simpl.
    apply existsb_exists. exists s. split; [exact Hin|]. now apply Z.eqb_eq. }
  run_handler. rewrite Hu. simpl.
  destruct (first _); [|contradiction]. simpl.
  destruct (AddInterval.startedAt input); simpl; rewrite Hfk;
    now rewrite <- app_assoc.
Qed.

Lemma listIntervals_owned (u : User) (input : ListIntervals.input)
    (ctx : ActionAPIContext) (w : World) (s : FocusSessions.row) :
  identity ctx = Some u ->
  In s (rows (focusSessions (db w))) ->
  FocusSessions.id s = ListIntervals.sessionId input ->
  FocusSessions.userId s = user_id u ->
  listIntervals input ctx w =
    (Returned (select_where
                 (fun i => FocusIntervals.sessionId i =? ListIntervals.sessionId input)
                 (focusIntervals (db w))),
     {| db := db w; ticks := ticks w;
        trace := trace w ++ [Select FocusSessionsT; Select FocusIntervalsT] |}).
Proof.
  intros Hu Hin Hid Hown.
  pose proof (owned_session_resolved u _ w s Hin Hid Hown) as Hfound.
  run_handler. rewrite Hu. simpl.
  destruct (first _); [|contradiction]. simpl.
  now rewrite <- app_assoc.
Qed.

(** X20. [addInterval] on a session the caller owns returns an interval of
    that session with [type] focus, [durationSeconds] 0 and [completed]
    false unless supplied, [endedAt] as supplied, and [startedAt] the
    supplied date or else the date read; the row is stored after the
    existing intervals, and presets and sessions are not written.  The
    clock is read only when [startedAt] is absent. *)
Theorem addInterval_inserts (u : User) (input : AddInterval.input)
    (ctx : ActionAPIContext) (w : World) (s : FocusSessions.row) :
  identity ctx = Some u ->
  In s (rows (focusSessions (db w))) ->
  FocusSessions.id s = AddInterval.sessionId input ->
  FocusSessions.userId s = user_id u ->
  exists (interval : FocusIntervals.row) (w' : World),
    addInterval clock input ctx w = (Returned interval, w') /\
    rows (focusIntervals (db w')) =
      (rows (focusIntervals (db w)) ++ [interval])%list /\
    focusSessions (db w') = focusSessions (db w) /\
    timerPresets (db w') = timerPresets (db w) /\
    FocusIntervals.id interval = nextId (focusIntervals (db w)) /\
    FocusIntervals.sessionId interval = AddInterval.sessionId input /\
    FocusIntervals.type interval =
      match AddInterval.type input with Some t => t | None => focus end /\
    FocusIntervals.durationSeconds interval =
      match AddInterval.durationSeconds input with Some d => d | None => 0 end /\
    FocusIntervals.completed interval =
      match AddInterval.completed input with Some b => b | None => false end /\
    FocusIntervals.endedAt interval = AddInterval.endedAt input /\
    FocusIntervals.startedAt interval =
      match AddInterval.startedAt input with
      | Some d => d
      | None => clock (ticks w)
      end /\
    ticks w' = match AddInterval.startedAt input with
               | Some _ => ticks w
               | None => S (ticks w)
               end.
Proof.
  intros Hu Hin Hid Hown.
  eexists. eexists. split; [now apply addInterval_owned with (u := u) (s := s)|].
  repeat split.
Qed.

(** X21. [listIntervals] on a session the caller owns returns the
    intervals of that session and no others: a row is in the answer
    exactly when it is stored with that [sessionId]; nothing is written. *)
Theorem listIntervals_returns_session_intervals (u : User)
    (input : ListIntervals.input) (ctx : ActionAPIContext) (w : World)
    (s : FocusSessions.row) :
  identity ctx = Some u ->
  In s (rows (focusSessions (db w))) ->
  FocusSessions.id s = ListIntervals.sessionId input ->
  FocusSessions.userId s = user_id u ->
  exists (intervals : list FocusIntervals.row) (w' : World),
    listIntervals input ctx w = (Returned intervals, w') /\
    db w' = db w /\
    (forall i, In i intervals <->
               In i (rows (focusIntervals (db w))) /\
               FocusIntervals.sessionId i = ListIntervals.sessionId input).
Proof.
  intros Hu Hin Hid Hown.
  eexists. eexists. split; [now apply listIntervals_owned with (u := u) (s := s)|].
  split; [reflexivity|].
  intros i. unfold select_where. rewrite filter_In. now rewrite Z.eqb_eq.
Qed.

(** X22. An interval just added is listed: after [addInterval] on a
    session the caller owns, [listIntervals] for that session returns what
    it would have returned before, followed by the new interval. *)
Theorem addInterval_then_listIntervals (u : User) (input : AddInterval.input)
    (ctx : ActionAPIContext) (w : World) (s : FocusSessions.row) :
  identity ctx = Some u ->
  In s (rows (focusSessions (db w))) ->
  FocusSessions.id s = AddInterval.sessionId input ->
  FocusSessions.userId s = user_id u ->
  exists (interval : FocusIntervals.row) (w1 : World),
    addInterval clock input ctx w = (Returned interval, w1) /\
    fst (listIntervals
           {| ListIntervals.sessionId := AddInterval.sessionId input |} ctx w1)
    = Returned
        (select_where
           (fun i => FocusIntervals.sessionId i =? AddInterval.sessionId input)
           (focusIntervals (db w)) ++ [interval])%list.
Proof.
  intros Hu Hin Hid Hown.
  eexists. eexists. split; [now apply addInterval_owned with (u := u) (s := s)|].
  rewrite (listIntervals_owned u _ ctx _ s); auto.
  simpl. unfold select_where. simpl. rewrite filter_app. simpl.
  now rewrite Z.eqb_refl.
Qed.

End IntervalRuns.

Section UpdatePresetFrame.

Variable clock : nat -> Date.

(** X23. Besides the row under the id, [updatePreset] rewrites only
    presets that are defaults, and those only when [isDefault: true] is
    supplied: any other preset, the caller's non-default ones included, is
    the same row at the same place afterwards, [updatedAt] and all. *)
Theorem updatePreset_rewrites_target_and_defaults_only
    (input : UpdatePreset.input) (ctx : ActionAPIContext) (w : World)
    (n : nat) (r : TimerPresets.row) :
  nth_error (rows (timerPresets (db w))) n = Some r ->
  TimerPresets.id r <> UpdatePreset.id input ->
  TimerPresets.isDefault r = false \/ UpdatePreset.isDefault input <> Some true ->
  nth_error (rows (timerPresets (db (snd (updatePreset clock input ctx w))))) n
  = Some r.
Proof.
  intros Hn Hid Hd.
  assert (Hnot : forall u, presetIs (UpdatePreset.id input) u r = false).
  { intros u. unfold presetIs. apply Z.eqb_neq in Hid. now rewrite Hid. }
  run_handler. destruct (identity ctx) as [u|]; simpl; [|exact Hn].
  destruct (first _) as [existing|]; simpl; [|exact Hn].
  destruct (truthy_bool (UpdatePreset.isDefault input)) eqn:Ht; simpl.
  - assert (Hr : TimerPresets.isDefault r = false).
    { destruct Hd as [Hd|Hd]; [exact Hd|].
      destruct (UpdatePreset.isDefault input) as [[|]|]; try discriminate.
      now elim Hd. }
    destruct (Nat.eqb (updateDataLength input) 0); simpl.
    + rewrite nth_error_map, Hn. simpl. rewrite Hr.
      now rewrite andb_false_r.
    + rewrite !nth_error_map, Hn. simpl. rewrite Hr, andb_false_r.
      now rewrite Hnot.
  - destruct (Nat.eqb (updateDataLength input) 0); simpl; [exact Hn|].
    rewrite nth_error_map, Hn. simpl. now rewrite Hnot.
Qed.

End UpdatePresetFrame.

(** * Concrete runs of the further properties *)

(** Alice creates a preset without any optional field. *)
Lemma createPreset_returns_stored_preset_witness :
  identity (signedIn alice) = Some {| user_id := alice |} /\
  primaryKeys (db presetsWorld) /\
  exists (preset : TimerPresets.row) (w' : World),
    createPreset sampleClock (newPreset "Pomodoro" None) (signedIn alice) presetsWorld
      = (Returned preset, w') /\
    presetAt (TimerPresets.id preset) (db w') = Some preset /\
    TimerPresets.focusMinutes preset = 25 /\
    TimerPresets.shortBreakMinutes preset = 5 /\
    TimerPresets.isDefault preset = false.
Proof.
  assert (Hk : primaryKeys (db presetsWorld)) by concrete_keys.
  split; [reflexivity|]. split; [exact Hk|].
  eexists. eexists. split; [reflexivity|].
  destruct (createPreset_returns_stored_preset sampleClock {| user_id := alice |}
              (newPreset "Pomodoro" None) (signedIn alice) presetsWorld _ _
              eq_refl Hk eq_refl)
    as (_ & Hat & _ & _ & Hfocus & Hshort & _ & _ & _ & Hdef).
  repeat split; assumption.
Defined.

Lemma createPreset_plain_keeps_rows_witness :
  identity (signedIn alice) = Some {| user_id := alice |} /\
  CreatePreset.isDefault (newPreset "Pomodoro" (Some false)) <> Some true /\
  exists (preset : TimerPresets.row) (w' : World),
    createPreset sampleClock (newPreset "Pomodoro" (Some false)) (signedIn alice)
      presetsWorld = (Returned preset, w') /\
    rows (timerPresets (db w')) = [classic; deepWork; sprint; preset].
Proof.
  assert (Hd : CreatePreset.isDefault (newPreset "Pomodoro" (Some false)) <> Some true)
    by discriminate.
  split; [reflexivity|]. split; [exact Hd|].
  destruct (createPreset_plain_keeps_rows sampleClock {| user_id := alice |}
              (newPreset "Pomodoro" (Some false)) (signedIn alice) presetsWorld
              eq_refl Hd)
    as (preset & w' & Hrun & Hrows & _).
  exists preset, w'. split; [exact Hrun|exact Hrows].
Defined.

Lemma createPreset_default_is_only_default_witness :
  identity (signedIn alice) = Some {| user_id := alice |} /\
  CreatePreset.isDefault (newPreset "Pomodoro" (Some true)) = Some true /\
  defaultsOf alice (db presetsWorld) = [deepWork] /\
  exists (preset : TimerPresets.row) (w' : World),
    createPreset sampleClock (newPreset "Pomodoro" (Some true)) (signedIn alice)
      presetsWorld = (Returned preset, w') /\
    defaultsOf alice (db w') = [preset].
Proof.
  split; [reflexivity|]. split; [reflexivity|]. split; [reflexivity|].
  apply (createPreset_default_is_only_default sampleClock {| user_id := alice |}
           (newPreset "Pomodoro" (Some true)) (signedIn alice) presetsWorld
           eq_refl eq_refl).
Defined.

(** Alice tries to take over Bob's preset 3 as her default. *)
Lemma updatePreset_not_found_witness :
  identity (signedIn alice) = Some {| user_id := alice |} /\
  (forall p, In p (rows (timerPresets (db presetsWorld))) ->
             TimerPresets.id p = UpdatePreset.id (changePreset 3 None (Some true)) ->
             TimerPresets.ownerId p <> alice) /\
  updatePreset sampleClock (changePreset 3 None (Some true)) (signedIn alice)
    presetsWorld =
    (Thrown NOT_FOUND,
     {| db := db presetsWorld; ticks := ticks presetsWorld;
        trace := trace presetsWorld ++ [Select TimerPresetsT] |}).
Proof.
  assert (Hnone : forall p, In p (rows (timerPresets (db presetsWorld))) ->
             TimerPresets.id p = UpdatePreset.id (changePreset 3 None (Some true)) ->
             TimerPresets.ownerId p <> user_id {| user_id := alice |}).
  { simpl. intros p [<-|[<-|[<-|[]]]]; simpl; intros H; discriminate. }
  split; [reflexivity|]. split; [exact Hnone|].
  apply (updatePreset_not_found sampleClock {| user_id := alice |}
           (changePreset 3 None (Some true)) (signedIn alice) presetsWorld
           eq_refl Hnone).
Defined.

(** Alice makes her first preset the default; it replaces the second. *)
Lemma updatePreset_default_is_only_default_witness :
  identity (signedIn alice) = Some {| user_id := alice |} /\
  primaryKeys (db presetsWorld) /\
  In classic (rows (timerPresets (db presetsWorld))) /\
  TimerPresets.id classic = 1 /\
  TimerPresets.ownerId classic = alice /\
  UpdatePreset.isDefault (changePreset 1 None (Some true)) = Some true /\
  defaultsOf alice (db presetsWorld) = [deepWork] /\
  exists (preset : TimerPresets.row) (w' : World),
    updatePreset sampleClock (changePreset 1 None (Some true)) (signedIn alice)
      presetsWorld = (Returned (Some preset), w') /\
    TimerPresets.id preset = 1 /\
    defaultsOf alice (db w') = [preset].
Proof.
  assert (Hk : primaryKeys (db presetsWorld)) by concrete_keys.
  assert (Hin : In classic (rows (timerPresets (db presetsWorld))))
    by (left; reflexivity).
  split; [reflexivity|]. split; [exact Hk|]. split; [exact Hin|].
  split; [reflexivity|]. split; [reflexivity|]. split; [reflexivity|].
  split; [reflexivity|].
  apply (updatePreset_default_is_only_default sampleClock {| user_id := alice |}
           (changePreset 1 None (Some true)) (signedIn alice) presetsWorld classic
           eq_refl Hk Hin eq_refl eq_refl eq_refl).
Defined.

(** Alice takes the default flag off her default preset. *)
Lemma updatePreset_unset_leaves_no_default_witness :
  identity (signedIn alice) = Some {| user_id := alice |} /\
  primaryKeys (db presetsWorld) /\
  atMostOneDefault alice (db presetsWorld) /\
  In deepWork (rows (timerPresets (db presetsWorld))) /\
  TimerPresets.id deepWork = 2 /\
  TimerPresets.ownerId deepWork = alice /\
  TimerPresets.isDefault deepWork = true /\
  UpdatePreset.isDefault (changePreset 2 None (Some false)) = Some false /\
  exists (preset : TimerPresets.row) (w' : World),
    updatePreset sampleClock (changePreset 2 None (Some false)) (signedIn alice)
      presetsWorld = (Returned (Some preset), w') /\
    TimerPresets.isDefault preset = false /\
    defaultsOf alice (db w') = [].
Proof.
  assert (Hk : primaryKeys (db presetsWorld)) by concrete_keys.
  assert (Hone : atMostOneDefault (user_id {| user_id := alice |}) (db presetsWorld)).
  { unfold atMostOneDefault. simpl. lia. }
  assert (Hin : In deepWork (rows (timerPresets (db presetsWorld))))
    by (right; left; reflexivity).
  split; [reflexivity|]. split; [exact Hk|]. split; [exact Hone|].
  split; [exact Hin|]. split; [reflexivity|]. split; [reflexivity|].
  split; [reflexivity|]. split; [reflexivity|].
  apply (updatePreset_unset_leaves_no_default sampleClock {| user_id := alice |}
           (changePreset 2 None (Some false)) (signedIn alice) presetsWorld deepWork
           eq_refl Hk Hone Hin eq_refl eq_refl eq_refl eq_refl).
Defined.

Lemma listPresets_returns_own_witness :
  identity (signedIn alice) = Some {| user_id := alice |} /\
  exists presets : list TimerPresets.row,
    listPresets (signedIn alice) presetsWorld =
      (Returned presets,
       {| db := db presetsWorld; ticks := ticks presetsWorld;
          trace := trace presetsWorld ++ [Select TimerPresetsT] |}) /\
    (forall p, In p presets <->
               In p (rows (timerPresets (db presetsWorld))) /\
               TimerPresets.ownerId p = alice).
Proof.
  split; [reflexivity|].
  apply (listPresets_returns_own {| user_id := alice |} (signedIn alice)
           presetsWorld eq_refl).
Defined.

Lemma createPreset_then_listPresets_witness :
  identity (signedIn bob) = Some {| user_id := bob |} /\
  exists (preset : TimerPresets.row) (w1 : World) (others : list TimerPresets.row),
    createPreset sampleClock (newPreset "Long" (Some true)) (signedIn bob)
      presetsWorld = (Returned preset, w1) /\
    fst (listPresets (signedIn bob) w1) = Returned (others ++ [preset])%list /\
    map TimerPresets.id others = [3].
Proof.
  split; [reflexivity|].
  apply (createPreset_then_listPresets sampleClock {| user_id := bob |}
           (newPreset "Long" (Some true)) (signedIn bob) presetsWorld eq_refl).
Defined.

(** Alice creates a default preset; Bob's preset, third in the table, is
    not rewritten. *)
Lemma presets_of_others_untouched_witness :
  identity (signedIn alice) = Some {| user_id := alice |} /\
  nth_error (rows (timerPresets (db presetsWorld))) 2 = Some sprint /\
  TimerPresets.ownerId sprint <> alice /\
  nth_error
    (rows (timerPresets
             (db (snd (server sampleClock
                         (CreatePresetCall (newPreset "Pomodoro" (Some true)))
                         (signedIn alice) presetsWorld))))) 2
  = Some sprint.
Proof.
  assert (Hother : TimerPresets.ownerId sprint <> user_id {| user_id := alice |})
    by discriminate.
  split; [reflexivity|]. split; [reflexivity|]. split; [exact Hother|].
  apply (presets_of_others_untouched sampleClock
           (CreatePresetCall (newPreset "Pomodoro" (Some true)))
           (signedIn alice) presetsWorld {| user_id := alice |} 2 sprint
           eq_refl eq_refl Hother).
Defined.

(** Alice moves the default to her first preset; her second one is
    rewritten, but not its id, owner and creation date. *)
Lemma preset_key_columns_fixed_witness :
  nth_error (rows (timerPresets (db presetsWorld))) 1 = Some deepWork /\
  exists r' : TimerPresets.row,
    nth_error
      (rows (timerPresets
               (db (snd (server sampleClock
                           (UpdatePresetCall (changePreset 1 None (Some true)))
                           (signedIn alice) presetsWorld))))) 1 = Some r' /\
    TimerPresets.id r' = 2 /\
    TimerPresets.ownerId r' = alice /\
    TimerPresets.createdAt r' = TimerPresets.createdAt deepWork.
Proof.
  split; [reflexivity|].
  apply (preset_key_columns_fixed sampleClock
           (UpdatePresetCall (changePreset 1 None (Some true)))
           (signedIn alice) presetsWorld 1 deepWork eq_refl).
Defined.

(** Alice completes her session 1 while Bob's session 2 is in progress. *)
Lemma sessions_of_others_untouched_witness :
  identity (signedIn alice) = Some {| user_id := alice |} /\
  primaryKeys (db sharedWorld) /\
  nth_error (rows (focusSessions (db sharedWorld))) 1 = Some morning /\
  FocusSessions.userId morning <> alice /\
  nth_error
    (rows (focusSessions
             (db (snd (server sampleClock
                         (CompleteSessionCall (finish 1 (Some 40) None))
                         (signedIn alice) sharedWorld))))) 1
  = Some morning.
Proof.
  assert (Hk : primaryKeys (db sharedWorld)) by concrete_keys.
  assert (Hother : FocusSessions.userId morning <> user_id {| user_id := alice |})
    by discriminate.
  split; [reflexivity|]. split; [exact Hk|]. split; [reflexivity|].
  split; [exact Hother|].
  apply (sessions_of_others_untouched sampleClock
           (CompleteSessionCall (finish 1 (Some 40) None))
           (signedIn alice) sharedWorld {| user_id := alice |} 1 morning
           eq_refl Hk eq_refl Hother).
Defined.

Lemma session_fixed_columns_witness :
  nth_error (rows (focusSessions (db sessionsWorld))) 0 = Some evening /\
  exists r' : FocusSessions.row,
    nth_error
      (rows (focusSessions
               (db (snd (server sampleClock
                           (CompleteSessionCall (finish 1 (Some 30) (Some cancelled)))
                           (signedIn alice) sessionsWorld))))) 0 = Some r' /\
    FocusSessions.userId r' = alice /\
    FocusSessions.startedAt r' = FocusSessions.startedAt evening /\
    FocusSessions.endedAt r' <> None.
Proof.
  split; [reflexivity|].
  destruct (session_fixed_columns sampleClock
              (CompleteSessionCall (finish 1 (Some 30) (Some cancelled)))
              (signedIn alice) sessionsWorld 0 evening eq_refl)
    as (r' & Hn & _ & Huser & _ & _ & _ & _ & Hstart & Hend).
  exists r'. split; [exact Hn|]. split; [exact Huser|]. split; [exact Hstart|].
  apply Hend. discriminate.
Defined.

(** Bob's [addInterval] on Alice's session throws. *)
Lemma thrown_error_writes_nothing_witness :
  server sampleClock (AddIntervalCall (newInterval 1)) (signedIn bob) sessionsWorld
    = (Thrown NOT_FOUND,
       {| db := db sessionsWorld; ticks := ticks sessionsWorld;
          trace := trace sessionsWorld ++ [Select FocusSessionsT] |}) /\
  db {| db := db sessionsWorld; ticks := ticks sessionsWorld;
        trace := trace sessionsWorld ++ [Select FocusSessionsT] |}
  = db sessionsWorld.
Proof.
  split; [reflexivity|].
  apply (thrown_error_writes_nothing sampleClock (AddIntervalCall (newInterval 1))
           (signedIn bob) sessionsWorld _ NOT_FOUND eq_refl).
Defined.

Lemma startSession_without_preset_witness :
  identity (signedIn alice) = Some {| user_id := alice |} /\
  primaryKeys (db sessionsWorld) /\
  StartSession.presetId (newSession None) = None /\
  exists (session : FocusSessions.row) (w' : World),
    startSession sampleClock (newSession None) (signedIn alice) sessionsWorld
      = (Returned session, w') /\
    sessionAt 2 (db w') = Some session /\
    FocusSessions.status session = in_progress /\
    FocusSessions.actualFocusMinutes session = 0 /\
    FocusSessions.endedAt session = None.
Proof.
  assert (Hk : primaryKeys (db sessionsWorld)) by concrete_keys.
  split; [reflexivity|]. split; [exact Hk|]. split; [reflexivity|].
  eexists. eexists. split; [reflexivity|].
  destruct (startSession_without_preset sampleClock {| user_id := alice |}
              (newSession None) (signedIn alice) sessionsWorld _ _
              eq_refl Hk eq_refl eq_refl)
    as (_ & _ & Hat & _ & Hstatus & Hfocus & _ & _ & Hend & _).
  repeat split; assumption.
Defined.

Lemma startSession_with_owned_preset_witness :
  identity (signedIn alice) = Some {| user_id := alice |} /\
  StartSession.presetId (newSession (Some 1)) = Some 1 /\
  1 <> 0 /\
  In classic (rows (timerPresets (db presetsWorld))) /\
  TimerPresets.id classic = 1 /\
  TimerPresets.ownerId classic = alice /\
  exists (session : FocusSessions.row) (w' : World),
    startSession sampleClock (newSession (Some 1)) (signedIn alice) presetsWorld
      = (Returned session, w') /\
    FocusSessions.presetId session = Some 1 /\
    rows (focusSessions (db w')) = [session].
Proof.
  assert (Hin : In classic (rows (timerPresets (db presetsWorld))))
    by (left; reflexivity).
  assert (Hnz : 1 <> 0) by discriminate.
  split; [reflexivity|]. split; [reflexivity|]. split; [exact Hnz|].
  split; [exact Hin|]. split; [reflexivity|]. split; [reflexivity|].
  destruct (startSession_with_owned_preset sampleClock {| user_id := alice |}
              (newSession (Some 1)) (signedIn alice) presetsWorld 1 classic
              eq_refl eq_refl Hnz Hin eq_refl eq_refl)
    as (session & w' & Hrun & Hpreset & _ & _ & Hrows & _).
  exists session, w'. repeat split; assumption.
Defined.

(** Alice starts a session on Bob's preset 3. *)
Lemma startSession_foreign_preset_not_found_witness :
  identity (signedIn alice) = Some {| user_id := alice |} /\
  StartSession.presetId (newSession (Some 3)) = Some 3 /\
  3 <> 0 /\
  (forall p, In p (rows (timerPresets (db presetsWorld))) ->
             TimerPresets.id p = 3 -> TimerPresets.ownerId p <> alice) /\
  exists w' : World,
    startSession sampleClock (newSession (Some 3)) (signedIn alice) presetsWorld
      = (Thrown NOT_FOUND, w') /\
    db w' = db presetsWorld /\
    trace w' = (trace presetsWorld ++ [Select TimerPresetsT])%list.
Proof.
  assert (Hnone : forall p, In p (rows (timerPresets (db presetsWorld))) ->
             TimerPresets.id p = 3 ->
             TimerPresets.ownerId p <> user_id {| user_id := alice |}).
  { simpl. intros p [<-|[<-|[<-|[]]]]; simpl; intros H; discriminate. }
  assert (Hnz : 3 <> 0) by discriminate.
  split; [reflexivity|]. split; [reflexivity|]. split; [exact Hnz|].
  split; [exact Hnone|].
  apply (startSession_foreign_preset_not_found sampleClock {| user_id := alice |}
           (newSession (Some 3)) (signedIn alice) presetsWorld 3
           eq_refl eq_refl Hnz Hnone).
Defined.

Lemma completeSession_stores_supplied_witness :
  identity (signedIn alice) = Some {| user_id := alice |} /\
  primaryKeys (db sessionsWorld) /\
  In evening (rows (focusSessions (db sessionsWorld))) /\
  FocusSessions.id evening = 1 /\
  FocusSessions.userId evening = alice /\
  exists (updated : FocusSessions.row) (w' : World),
    completeSession sampleClock (finish 1 (Some 30) (Some cancelled))
      (signedIn alice) sessionsWorld = (Returned (Some updated), w') /\
    FocusSessions.actualFocusMinutes updated = 30 /\
    FocusSessions.status updated = cancelled.
Proof.
  assert (Hk : primaryKeys (db sessionsWorld)) by concrete_keys.
  assert (Hin : In evening (rows (focusSessions (db sessionsWorld))))
    by (left; reflexivity).
  split; [reflexivity|]. split; [exact Hk|]. split; [exact Hin|].
  split; [reflexivity|]. split; [reflexivity|].
  destruct (completeSession_stores_supplied sampleClock {| user_id := alice |}
              (finish 1 (Some 30) (Some cancelled)) (signedIn alice)
              sessionsWorld evening eq_refl Hk Hin eq_refl eq_refl)
    as (updated & w' & Hrun & _ & Hfocus & _ & _ & Hstatus & _).
  exists updated, w'. split; [exact Hrun|]. split.
  - exact (Hfocus 30 eq_refl).
  - exact (Hstatus cancelled eq_refl).
Defined.

Lemma startSession_then_completeSession_witness :
  identity (signedIn bob) = Some {| user_id := bob |} /\
  primaryKeys (db sessionsWorld) /\
  StartSession.presetId (newSession None) = None /\
  exists (session : FocusSessions.row) (w1 : World)
         (updated : FocusSessions.row) (w2 : World),
    startSession sampleClock (newSession None) (signedIn bob) sessionsWorld
      = (Returned session, w1) /\
    completeSession sampleClock (finish (FocusSessions.id session) (Some 23) None)
      (signedIn bob) w1 = (Returned (Some updated), w2) /\
    rows (focusSessions (db w2)) = [evening; updated] /\
    FocusSessions.actualFocusMinutes updated = 23 /\
    FocusSessions.status updated = completed.
Proof.
  assert (Hk : primaryKeys (db sessionsWorld)) by concrete_keys.
  split; [reflexivity|]. split; [exact Hk|]. split; [reflexivity|].
  destruct (startSession_then_completeSession sampleClock {| user_id := bob |}
              (newSession None) (signedIn bob) sessionsWorld eq_refl Hk eq_refl)
    as (session & w1 & Hstart & Hthen).
  destruct (Hthen (finish (FocusSessions.id session) (Some 23) None) eq_refl)
    as (updated & w2 & Hdone & Hrows & _ & _ & _ & _ & _ & Hfocus & _ & _ & Hstatus).
  exists session, w1, updated, w2. repeat split; assumption.
Defined.

Lemma addInterval_inserts_witness :
  identity (signedIn alice) = Some {| user_id := alice |} /\
  In evening (rows (focusSessions (db sessionsWorld))) /\
  FocusSessions.id evening = AddInterval.sessionId (newInterval 1) /\
  FocusSessions.userId evening = alice /\
  exists (interval : FocusIntervals.row) (w' : World),
    addInterval sampleClock (newInterval 1) (signedIn alice) sessionsWorld
      = (Returned interval, w') /\
    rows (focusIntervals (db w')) = [interval] /\
    FocusIntervals.type interval = break /\
    FocusIntervals.durationSeconds interval = 300 /\
    FocusIntervals.completed interval = false /\
    FocusIntervals.startedAt interval = sampleClock (ticks sessionsWorld).
Proof.
  assert (Hin : In evening (rows (focusSessions (db sessionsWorld))))
    by (left; reflexivity).
  split; [reflexivity|]. split; [exact Hin|]. split; [reflexivity|].
  split; [reflexivity|].
  destruct (addInterval_inserts sampleClock {| user_id := alice |}
              (newInterval 1) (signedIn alice) sessionsWorld evening
              eq_refl Hin eq_refl eq_refl)
    as (interval & w' & Hrun & Hrows & _ & _ & _ & _ & Htype & Hdur & Hdone & _
        & Hstart & _).
  exists interval, w'. repeat split; assumption.
Defined.

Lemma listIntervals_returns_session_intervals_witness :
  identity (signedIn alice) = Some {| user_id := alice |} /\
  In evening (rows (focusSessions (db intervalsWorld))) /\
  FocusSessions.id evening = 1 /\
  FocusSessions.userId evening = alice /\
  exists (intervals : list FocusIntervals.row) (w' : World),
    listIntervals {| ListIntervals.sessionId := 1 |} (signedIn alice) intervalsWorld
      = (Returned intervals, w') /\
    db w' = db intervalsWorld /\
    (forall i, In i intervals <->
               In i (rows (focusIntervals (db intervalsWorld))) /\
               FocusIntervals.sessionId i = 1).
Proof.
  assert (Hin : In evening (rows (focusSessions (db intervalsWorld))))
    by (left; reflexivity).
  split; [reflexivity|]. split; [exact Hin|]. split; [reflexivity|].
  split; [reflexivity|].
  apply (listIntervals_returns_session_intervals {| user_id := alice |}
           {| ListIntervals.sessionId := 1 |} (signedIn alice) intervalsWorld
           evening eq_refl Hin eq_refl eq_refl).
Defined.

Lemma addInterval_then_listIntervals_witness :
  identity (signedIn alice) = Some {| user_id := alice |} /\
  In evening (rows (focusSessions (db intervalsWorld))) /\
  FocusSessions.id evening = 1 /\
  FocusSessions.userId evening = alice /\
  exists (interval : FocusIntervals.row) (w1 : World),
    addInterval sampleClock (newInterval 1) (signedIn alice) intervalsWorld
      = (Returned interval, w1) /\
    fst (listIntervals {| ListIntervals.sessionId := 1 |} (signedIn alice) w1)
    = Returned (rows (focusIntervals (db intervalsWorld)) ++ [interval])%list.
Proof.
  assert (Hin : In evening (rows (focusSessions (db intervalsWorld))))
    by (left; reflexivity).
  split; [reflexivity|]. split; [exact Hin|]. split; [reflexivity|].
  split; [reflexivity|].
  apply (addInterval_then_listIntervals sampleClock {| user_id := alice |}
           (newInterval 1) (signedIn alice) intervalsWorld evening
           eq_refl Hin eq_refl eq_refl).
Defined.

(** Alice moves the default to her second preset: her first preset, not a
    default, keeps its [updatedAt]. *)
Lemma updatePreset_rewrites_target_and_defaults_only_witness :
  nth_error (rows (timerPresets (db presetsWorld))) 0 = Some classic /\
  TimerPresets.id classic <> UpdatePreset.id (changePreset 2 None (Some true)) /\
  (TimerPresets.isDefault classic = false \/
   UpdatePreset.isDefault (changePreset 2 None (Some true)) <> Some true) /\
  nth_error
    (rows (timerPresets
             (db (snd (updatePreset sampleClock (changePreset 2 None (Some true))
                         (signedIn alice) presetsWorld))))) 0
  = Some classic.
Proof.
  assert (Hid : TimerPresets.id classic
                <> UpdatePreset.id (changePreset 2 None (Some true)))
    by discriminate.
  assert (Hd : TimerPresets.isDefault classic = false \/
               UpdatePreset.isDefault (changePreset 2 None (Some true)) <> Some true)
    by (left; reflexivity).
  split; [reflexivity|]. split; [exact Hid|]. split; [exact Hd|].
  apply (updatePreset_rewrites_target_and_defaults_only sampleClock
           (changePreset 2 None (Some true)) (signedIn alice) presetsWorld
           0 classic eq_refl Hid Hd).
Defined.
